(** * Financial CRM with WhatsApp notifications: model and properties

    A shallow embedding of [financial_crm_system.py]: the three tables kept by
    [DatabaseManager], the gateway [WhatsAppAPI] and the ten operations of
    [FinancialCRMSystem], followed by the properties the specification states
    about them.

    Conventions of the model.
    - A Python scalar is a [value]: [None], a number or a [str].  Numbers are
      integer valued ([Z]); on such amounts the arithmetic of SQLite's REAL
      columns and of Python's [float] is exact, rounding of fractional amounts
      is outside the model.
    - A [datetime] is the count of microseconds since [datetime.min].  The
      column [created_at] holds [isoformat()] strings, whose lexicographic
      order is the chronological one, so a row keeps the count and SQL
      comparisons on [created_at] compare counts.
    - Code outside the repository is a parameter of the development: the
      rendering [isoformat], the three conversions SQLite applies to a value
      whose type does not match the column ([text_of_num], [num_of_text],
      [cast_text]).
    - A computation is a function from the [world] (tables, clock, gateway
      configuration, network) to an outcome and a new world; an outcome is a
      raised exception or a returned value. *)

From Stdlib Require Import ZArith List Lia.
From stdpp Require Import gmap strings list fin_maps pretty sorting.

Open Scope Z_scope.

(** ** Python values *)

Inductive value :=
  | VNone
  | VNum (z : Z)
  | VStr (s : string).

#[global] Instance value_eq_dec : EqDecision value.
Proof. solve_decision. Defined.

(** Truth value of an object, as [if x:] and [not x] take it. *)
Definition truthy (v : value) : bool :=
  match v with
  | VNone => false
  | VNum z => negb (z =? 0)
  | VStr s => negb (String.eqb s "")
  end.

(** [x or d] on an optional number: [None] and [0] give way to [d]. *)
Definition py_or (x : option Z) (d : Z) : Z :=
  match x with
  | Some z => if z =? 0 then d else z
  | None => d
  end.

(** [format(x, ".2f")] on an integer valued number. *)
Definition format_2f (z : Z) : string := pretty z +:+ ".00".

(** Exceptions derived from [Exception]; [str_exn] is [str(e)]. *)
Inductive exn :=
  | IntegrityError (msg : string)
  | OperationalError (msg : string)
  | TypeError (msg : string)
  | OverflowError (msg : string)
  | KeyError (msg : string)
  | AttributeError (msg : string)
  | IndexError (msg : string)
  | ValueError (msg : string)
  | RequestException (msg : string).

Definition str_exn (e : exn) : string :=
  match e with
  | IntegrityError m | OperationalError m | TypeError m | OverflowError m
  | KeyError m | AttributeError m | IndexError m | ValueError m
  | RequestException m => m
  end.

(** What a result dictionary holds under a key. *)
Inductive robj :=
  | RBool (b : bool)
  | RVal (v : value)
  | RRow (d : gmap string value)
  | RRows (l : list (gmap string value))
  | RData (raw : string).

(** ** Data model *)

(** The dataclass [Customer] with its defaults. *)
Record Customer := {
  c_id : option Z;
  c_name : value;
  c_phone : value;
  c_email : value;
  c_whatsapp_id : value;
  c_created_at : Z;
  c_status : value;
  c_credit_limit : value;
  c_current_balance : value
}.

Definition Customer_init (name phone email whatsapp_id : value) (created_at : Z)
    (credit_limit : value) : Customer :=
  {| c_id := None; c_name := name; c_phone := phone; c_email := email;
     c_whatsapp_id := whatsapp_id; c_created_at := created_at;
     c_status := VStr "active"; c_credit_limit := credit_limit;
     c_current_balance := VNum 0 |}.

(** The dataclass [Transaction] with its defaults. *)
Record Transaction := {
  t_id : option Z;
  t_customer_id : value;
  t_amount : value;
  t_transaction_type : value;
  t_description : value;
  t_status : value;
  t_created_at : Z;
  t_processed_at : value
}.

Definition Transaction_init (customer_id amount transaction_type description : value)
    (created_at : Z) : Transaction :=
  {| t_id := None; t_customer_id := customer_id; t_amount := amount;
     t_transaction_type := transaction_type; t_description := description;
     t_status := VStr "pending"; t_created_at := created_at;
     t_processed_at := VStr "" |}.

(** A row of table [customers].  Columns declared [TEXT NOT NULL] hold a
    string, nullable [TEXT] columns an optional string, [REAL] columns any
    value (a text that is no number stays a text). *)
Record customer_row := {
  id : Z;
  name : string;
  phone : string;
  email : option string;
  whatsapp_id : option string;
  created_at : Z;
  status : option string;
  credit_limit : value;
  current_balance : value
}.

(** A row of table [transactions]. *)
Record transaction_row := {
  tx_id : Z;
  tx_customer_id : value;
  tx_amount : value;
  tx_transaction_type : string;
  tx_description : option string;
  tx_status : option string;
  tx_created_at : Z;
  tx_processed_at : option string
}.

(** A row of table [whatsapp_messages]. *)
Record message_row := {
  m_id : Z;
  m_customer_id : value;
  m_message_type : string;
  m_content : string;
  m_direction : string;
  m_status : option string;
  m_created_at : Z
}.

Definition set_current_balance (b : value) (r : customer_row) : customer_row :=
  {| id := id r; name := name r; phone := phone r; email := email r;
     whatsapp_id := whatsapp_id r; created_at := created_at r;
     status := status r; credit_limit := credit_limit r;
     current_balance := b |}.

Record database := {
  customers : list customer_row;
  transactions : list transaction_row;
  whatsapp_messages : list message_row
}.

(** ** The gateway and the world *)

(** The attributes [WhatsAppAPI.__init__] reads from the environment. *)
Record WhatsAppAPI := {
  api_url : string;
  access_token : string;
  phone_number_id : string
}.

(** One call of [requests.post]: the address, the [Authorization] header and
    the fields of the JSON payload. *)
Record http_request := {
  rq_url : string;
  rq_authorization : string;
  rq_to : value;
  rq_type : string;
  rq_body : string
}.

(** What [requests.post(...)] followed by [response.json()] does: it gives
    the decoded body or raises. *)
Inductive net_outcome :=
  | NetJson (data : string)
  | NetRaise (msg : string).

(** The state a computation runs in.  [faults] scripts the store: each
    connection takes the head, [Some msg] makes the statement raise
    [sqlite3.OperationalError]; an empty script is a healthy store.  [http]
    is the behaviour of the network, [posted] the requests sent so far. *)
Record world := {
  db : database;
  clock : Z;
  faults : list (option string);
  whatsapp : WhatsAppAPI;
  http : http_request -> net_outcome;
  posted : list http_request
}.

Definition set_db (d : database) (w : world) : world :=
  {| db := d; clock := clock w; faults := faults w; whatsapp := whatsapp w;
     http := http w; posted := posted w |}.

Definition set_faults (f : list (option string)) (w : world) : world :=
  {| db := db w; clock := clock w; faults := f; whatsapp := whatsapp w;
     http := http w; posted := posted w |}.

Definition set_posted (p : list http_request) (w : world) : world :=
  {| db := db w; clock := clock w; faults := faults w; whatsapp := whatsapp w;
     http := http w; posted := p |}.

(** ** Computations that may raise *)

Definition M (A : Type) : Type := world -> (exn + A) * world.

Definition ret {A} (a : A) : M A := fun w => (inr a, w).

Definition raise {A} (e : exn) : M A := fun w => (inl e, w).

Definition bind {A B} (m : M A) (k : A -> M B) : M B :=
  fun w => match m w with
           | (inr a, w') => k a w'
           | (inl e, w') => (inl e, w')
           end.

Declare Scope crm_scope.
Delimit Scope crm_scope with crm.
Notation "x <- m ;; k" := (bind m (fun x => k))
  (at level 100, m at next level, right associativity) : crm_scope.
Notation "m ;;; k" := (bind m (fun _ => k))
  (at level 100, right associativity) : crm_scope.
Open Scope crm_scope.

(** A pure step that may raise, run inside a computation. *)
Definition lift {A} (r : exn + A) : M A := fun w => (r, w).

(** The failure dictionary every handler builds. *)
Definition failure (msg : string) : gmap string robj :=
  {[ "success" := RBool false; "error" := RVal (VStr msg) ]}.

(** [try: body / except Exception as e: return {"success": False,
    "error": str(e)}].  What the body changed before it raised stays. *)
Definition try_except (body : M (gmap string robj)) : M (gmap string robj) :=
  fun w => match body w with
           | (inl e, w') => (inr (failure (str_exn e)), w')
           | (inr r, w') => (inr r, w')
           end.

(** [datetime.now()]. *)
Definition datetime_now : M Z := fun w => (inr (clock w), w).

(** ** Plain Python helpers *)

(** [d.get(k, dflt)]. *)
Definition dict_get (d : gmap string value) (k : string) (dflt : value) : value :=
  default dflt (d !! k).

(** [r[k]]. *)
Definition subscript (r : gmap string robj) (k : string) : M robj :=
  match r !! k with
  | Some o => ret o
  | None => raise (KeyError k)
  end.

Definition robj_truthy (o : robj) : bool :=
  match o with
  | RBool b => b
  | RVal v => truthy v
  | RRow d => negb (bool_decide (d = ∅))
  | RRows l => negb (bool_decide (l = []))
  | RData raw => negb (String.eqb raw "")
  end.

(** The receiver of [.get]: only a dictionary has the method. *)
Definition as_dict (o : robj) : M (gmap string value) :=
  match o with
  | RRow d => ret d
  | _ => raise (AttributeError "object has no attribute 'get'")
  end.

(** [str(x)] as an f-string field without format renders it. *)
Definition py_str (v : value) : string :=
  match v with
  | VNone => "None"
  | VNum z => pretty z
  | VStr s => s
  end.

(** [x <= 0]. *)
Definition le_zero (v : value) : exn + bool :=
  match v with
  | VNum z => inr (z <=? 0)
  | VNone => inl (TypeError "'<=' not supported between instances of 'NoneType' and 'int'")
  | VStr _ => inl (TypeError "'<=' not supported between instances of 'str' and 'int'")
  end.

(** The field [{x:.2f}] of an f-string. *)
Definition format_field (v : value) : exn + string :=
  match v with
  | VNum z => inr (format_2f z)
  | VNone => inl (TypeError "unsupported format string passed to NoneType.__format__")
  | VStr _ => inl (ValueError "Unknown format code 'f' for object of type 'str'")
  end.

(** [datetime] and [timedelta]: microseconds, with the ranges of the
    standard library ([date.max.toordinal()] is 3652059). *)
Definition MICROSECONDS_PER_DAY : Z := 86400000000.
Definition DATETIME_END : Z := 3652059 * MICROSECONDS_PER_DAY.
Definition TIMEDELTA_MAX_DAYS : Z := 999999999.

Definition datetime_valid (t : Z) : Prop := 0 <= t < DATETIME_END.

Definition timedelta (days : Z) : exn + Z :=
  if Z.abs days <=? TIMEDELTA_MAX_DAYS
  then inr (days * MICROSECONDS_PER_DAY)
  else inl (OverflowError "days must have magnitude <= 999999999").

Definition datetime_sub (t delta : Z) : exn + Z :=
  if (0 <=? t - delta) && (t - delta <? DATETIME_END)
  then inr (t - delta)
  else inl (OverflowError "date value out of range").

(** [ORDER BY key DESC], ties in table order. *)
Fixpoint insert_desc {A} (key : A -> Z) (x : A) (l : list A) : list A :=
  match l with
  | [] => [x]
  | y :: l' => if key y <=? key x then x :: l else y :: insert_desc key x l'
  end.

Definition order_by_desc {A} (key : A -> Z) (l : list A) : list A :=
  fold_right (insert_desc key) [] l.

(** [LIMIT n]: a negative bound is no bound. *)
Definition sql_limit {A} (n : Z) (l : list A) : list A :=
  if n <? 0 then l else take (Z.to_nat n) l.

(** [AUTOINCREMENT]: one more than the largest identity so far (no row is
    ever deleted, so the stored ones are all there have been). *)
Definition next_id (ids : list Z) : Z := 1 + fold_right Z.max 0 ids.

(** A [NOT NULL] column refuses NULL. *)
Definition not_null {A} (column : string) (o : option A) : exn + A :=
  match o with
  | Some a => inr a
  | None => inl (IntegrityError ("NOT NULL constraint failed: " +:+ column))
  end.

Definition opt_text (o : option string) : value :=
  match o with
  | Some s => VStr s
  | None => VNone
  end.

(** ** The store and the service *)

Section Service.

(** [datetime.isoformat()]. *)
Variable isoformat : Z -> string.
(** TEXT affinity: the text a number is stored as in a [TEXT] column. *)
Variable text_of_num : Z -> string.
(** NUMERIC affinity: the number a well formed numeric text is converted to
    in an [INTEGER] or [REAL] column or against the key in a comparison. *)
Variable num_of_text : string -> option Z.
(** The number a text counts as in SQL arithmetic and in [SUM]. *)
Variable cast_text : string -> Z.

Definition text_affinity (v : value) : option string :=
  match v with
  | VNone => None
  | VNum z => Some (text_of_num z)
  | VStr s => Some s
  end.

Definition numeric_affinity (v : value) : value :=
  match v with
  | VStr s => match num_of_text s with
              | Some z => VNum z
              | None => VStr s
              end
  | _ => v
  end.

Definition not_null_value (column : string) (v : value) : exn + value :=
  match v with
  | VNone => inl (IntegrityError ("NOT NULL constraint failed: " +:+ column))
  | _ => inr v
  end.

Definition to_number (v : value) : option Z :=
  match v with
  | VNone => None
  | VNum z => Some z
  | VStr s => Some (cast_text s)
  end.

(** SQL [a + b] and [a - b]: NULL if an operand is NULL. *)
Definition sql_arith (op : Z -> Z -> Z) (a b : value) : value :=
  match to_number a, to_number b with
  | Some x, Some y => VNum (op x y)
  | _, _ => VNone
  end.

(** [SUM(amount)]: NULL over no row. *)
Definition sql_sum (amounts : list value) : option Z :=
  match omap to_number amounts with
  | [] => None
  | zs => Some (fold_right Z.add 0 zs)
  end.

(** [WHERE id = ?] against a bound parameter. *)
Definition id_matches (key : Z) (param : value) : bool :=
  bool_decide (numeric_affinity param = VNum key).

(** *** SQL statements *)

Definition stmt (A : Type) : Type := database -> exn + (A * database).

(** [INSERT INTO customers (name, phone, email, whatsapp_id, created_at,
    credit_limit)]; [status] and [current_balance] take the defaults of the
    schema. *)
Definition insert_customer (p_name p_phone p_email p_whatsapp_id : value)
    (p_created_at : Z) (p_credit_limit : value) : stmt Z := fun d =>
  match not_null "customers.name" (text_affinity p_name) with
  | inl e => inl e
  | inr nm =>
    match not_null "customers.phone" (text_affinity p_phone) with
    | inl e => inl e
    | inr ph =>
      if existsb (fun r => bool_decide (phone r = ph)) (customers d)
      then inl (IntegrityError "UNIQUE constraint failed: customers.phone")
      else
        let new_id := next_id (map id (customers d)) in
        let row := {| id := new_id; name := nm; phone := ph;
                      email := text_affinity p_email;
                      whatsapp_id := text_affinity p_whatsapp_id;
                      created_at := p_created_at;
                      status := Some "active";
                      credit_limit := numeric_affinity p_credit_limit;
                      current_balance := VNum 0 |} in
        inr (new_id, {| customers := customers d ++ [row];
                        transactions := transactions d;
                        whatsapp_messages := whatsapp_messages d |})
    end
  end.

(** [SELECT * FROM customers WHERE id = ?]. *)
Definition select_customer (key : Z) : stmt (list customer_row) := fun d =>
  inr (filter (fun r => id r = key) (customers d), d).

(** [SELECT * FROM customers [WHERE status = ?] ORDER BY created_at DESC]. *)
Definition select_customers (by_status : option string) : stmt (list customer_row) := fun d =>
  let rows := match by_status with
              | Some s => filter (fun r => status r = Some s) (customers d)
              | None => customers d
              end in
  inr (order_by_desc created_at rows, d).

(** [UPDATE customers SET current_balance = <expr> WHERE id = ?], the new
    cell given as a function of the old one. *)
Definition update_balance (new_balance : value -> value) (param : value)
  : stmt (list customer_row) := fun d =>
  let upd r :=
    if id_matches (id r) param
    then set_current_balance (numeric_affinity (new_balance (current_balance r))) r
    else r in
  inr ([], {| customers := map upd (customers d);
              transactions := transactions d;
              whatsapp_messages := whatsapp_messages d |}).

(** [INSERT INTO transactions (customer_id, amount, transaction_type,
    description, created_at)]. *)
Definition insert_transaction (p_customer_id p_amount p_type p_description : value)
    (p_created_at : Z) : stmt Z := fun d =>
  match not_null_value "transactions.customer_id" (numeric_affinity p_customer_id) with
  | inl e => inl e
  | inr cid =>
    match not_null_value "transactions.amount" (numeric_affinity p_amount) with
    | inl e => inl e
    | inr amt =>
      match not_null "transactions.transaction_type" (text_affinity p_type) with
      | inl e => inl e
      | inr ty =>
        let new_id := next_id (map tx_id (transactions d)) in
        let row := {| tx_id := new_id; tx_customer_id := cid; tx_amount := amt;
                      tx_transaction_type := ty;
                      tx_description := text_affinity p_description;
                      tx_status := Some "pending";
                      tx_created_at := p_created_at;
                      tx_processed_at := None |} in
        inr (new_id, {| customers := customers d;
                        transactions := transactions d ++ [row];
                        whatsapp_messages := whatsapp_messages d |})
      end
    end
  end.

(** [SELECT * FROM transactions WHERE customer_id = ? ORDER BY created_at
    DESC LIMIT ?]. *)
Definition select_transactions (key limit : Z) : stmt (list transaction_row) := fun d =>
  inr (sql_limit limit
         (order_by_desc tx_created_at
            (filter (fun t => tx_customer_id t = VNum key) (transactions d))), d).

(** [SELECT SUM(amount) FROM transactions WHERE transaction_type = ty AND
    created_at >= ?]; the one row of the answer is its value. *)
Definition select_sum (ty : string) (since : Z) : stmt (list (option Z)) := fun d =>
  inr ([sql_sum (map tx_amount
                  (filter (fun t => tx_transaction_type t = ty /\ since <= tx_created_at t)
                     (transactions d)))], d).

(** [SELECT COUNT( * ) FROM transactions WHERE created_at >= ?]. *)
Definition select_count_since (since : Z) : stmt (list Z) := fun d =>
  inr ([Z.of_nat (length (filter (fun t => since <= tx_created_at t)
                            (transactions d)))], d).

(** [SELECT COUNT( * ) FROM customers WHERE status = 'active']. *)
Definition select_count_active : stmt (list Z) := fun d =>
  inr ([Z.of_nat (length (filter (fun r => status r = Some "active")
                            (customers d)))], d).

(** [INSERT INTO whatsapp_messages (customer_id, message_type, content,
    direction, created_at)]. *)
Definition insert_message (p_customer_id : Z) (p_type p_content p_direction : string)
    (p_created_at : Z) : stmt Z := fun d =>
  let new_id := next_id (map m_id (whatsapp_messages d)) in
  let row := {| m_id := new_id; m_customer_id := VNum p_customer_id;
                m_message_type := p_type; m_content := p_content;
                m_direction := p_direction; m_status := Some "sent";
                m_created_at := p_created_at |} in
  inr (new_id, {| customers := customers d;
                  transactions := transactions d;
                  whatsapp_messages := whatsapp_messages d ++ [row] |}).

(** [SELECT * FROM whatsapp_messages WHERE customer_id = ? ORDER BY
    created_at DESC LIMIT ?]. *)
Definition select_messages (key limit : Z) : stmt (list message_row) := fun d =>
  inr (sql_limit limit
         (order_by_desc m_created_at
            (filter (fun m => m_customer_id m = VNum key) (whatsapp_messages d))), d).

(** *** DatabaseManager *)

(** [sqlite3.connect]: takes the next entry of the fault script. *)
Definition connect : M unit := fun w =>
  match faults w with
  | Some msg :: rest => (inl (OperationalError msg), set_faults rest w)
  | None :: rest => (inr tt, set_faults rest w)
  | [] => (inr tt, w)
  end.

(** Execute one statement and commit; a statement that raises changes
    nothing. *)
Definition execute {A} (s : stmt A) : M A :=
  connect ;;;
  fun w => match s (db w) with
           | inl e => (inl e, w)
           | inr (a, d) => (inr a, set_db d w)
           end.

Definition execute_query {R} (s : stmt (list R)) : M (list R) := execute s.

Definition execute_insert (s : stmt Z) : M Z := execute s.

(** [results[0]]. *)
Definition first_row {R} (rows : list R) : M R :=
  match rows with
  | r :: _ => ret r
  | [] => raise (IndexError "list index out of range")
  end.

(** [dict(row)] for the three tables. *)
Definition customer_dict (r : customer_row) : gmap string value :=
  {[ "id" := VNum (id r); "name" := VStr (name r); "phone" := VStr (phone r);
     "email" := opt_text (email r); "whatsapp_id" := opt_text (whatsapp_id r);
     "created_at" := VStr (isoformat (created_at r));
     "status" := opt_text (status r); "credit_limit" := credit_limit r;
     "current_balance" := current_balance r ]}.

Definition transaction_dict (t : transaction_row) : gmap string value :=
  {[ "id" := VNum (tx_id t); "customer_id" := tx_customer_id t;
     "amount" := tx_amount t; "transaction_type" := VStr (tx_transaction_type t);
     "description" := opt_text (tx_description t);
     "status" := opt_text (tx_status t);
     "created_at" := VStr (isoformat (tx_created_at t));
     "processed_at" := opt_text (tx_processed_at t) ]}.

Definition message_dict (m : message_row) : gmap string value :=
  {[ "id" := VNum (m_id m); "customer_id" := m_customer_id m;
     "message_type" := VStr (m_message_type m); "content" := VStr (m_content m);
     "direction" := VStr (m_direction m); "status" := opt_text (m_status m);
     "created_at" := VStr (isoformat (m_created_at m)) ]}.

(** *** WhatsAppAPI *)

(** [requests.post(url, headers=headers, json=payload)] and
    [response.json()]: the request is sent, then the network answers. *)
Definition requests_post (rq : http_request) : M string := fun w =>
  let w' := set_posted (posted w ++ [rq]) w in
  match http w rq with
  | NetJson data => (inr data, w')
  | NetRaise msg => (inl (RequestException msg), w')
  end.

(** The request [send_message] builds: address, headers and payload. *)
Definition message_request (self : WhatsAppAPI) (to : value) (message : string)
    (message_type : string) : http_request :=
  {| rq_url := api_url self +:+ "/" +:+ phone_number_id self +:+ "/messages";
     rq_authorization := "Bearer " +:+ access_token self;
     rq_to := to; rq_type := message_type; rq_body := message |}.

Definition send_message (to : value) (message : string) (message_type : string)
  : M (gmap string robj) := fun w =>
  let self := whatsapp w in
  if String.eqb (api_url self) "" || String.eqb (access_token self) ""
  then (inr (failure "WhatsApp API not configured"), w)
  else
    try_except
      (data <- requests_post (message_request self to message message_type) ;;
       ret {[ "success" := RBool true; "data" := RData data ]}) w.

(** *** FinancialCRMSystem *)

Definition create_customer (customer_data : gmap string value) : M (gmap string robj) :=
  try_except
    (now <- datetime_now ;;
     let customer :=
       Customer_init (dict_get customer_data "name" (VStr ""))
                     (dict_get customer_data "phone" (VStr ""))
                     (dict_get customer_data "email" (VStr ""))
                     (dict_get customer_data "whatsapp_id" (VStr ""))
                     now
                     (dict_get customer_data "credit_limit" (VNum 0)) in
     customer_id <- execute_insert
       (insert_customer (c_name customer) (c_phone customer) (c_email customer)
          (c_whatsapp_id customer) (c_created_at customer) (c_credit_limit customer)) ;;
     ret {[ "success" := RBool true; "customer_id" := RVal (VNum customer_id) ]}).

Definition get_customer (customer_id : Z) : M (gmap string robj) :=
  try_except
    (results <- execute_query (select_customer customer_id) ;;
     match results with
     | r :: _ => ret {[ "success" := RBool true; "customer" := RRow (customer_dict r) ]}
     | [] => ret (failure "Customer not found")
     end).

Definition get_customers (status_filter : option string) : M (gmap string robj) :=
  try_except
    (results <- (if truthy (opt_text status_filter)
                 then execute_query (select_customers status_filter)
                 else execute_query (select_customers None)) ;;
     ret {[ "success" := RBool true; "customers" := RRows (map customer_dict results) ]}).

(** The statement [update_customer_balance] selects by its operation. *)
Definition balance_statement (customer_id amount : value) (operation : string)
  : stmt (list customer_row) :=
  if String.eqb operation "add"
  then update_balance (fun balance => sql_arith Z.add balance amount) customer_id
  else if String.eqb operation "subtract"
  then update_balance (fun balance => sql_arith Z.sub balance amount) customer_id
  else update_balance (fun _ => amount) customer_id.

Definition update_customer_balance (customer_id amount : value) (operation : string)
  : M (gmap string robj) :=
  try_except
    (let query := balance_statement customer_id amount operation in
     execute_query query ;;;
     ret {[ "success" := RBool true ]}).

Definition create_transaction (transaction_data : gmap string value) : M (gmap string robj) :=
  try_except
    (now <- datetime_now ;;
     let transaction :=
       Transaction_init (dict_get transaction_data "customer_id" VNone)
                        (dict_get transaction_data "amount" (VNum 0))
                        (dict_get transaction_data "transaction_type" (VStr ""))
                        (dict_get transaction_data "description" (VStr ""))
                        now in
     transaction_id <- execute_insert
       (insert_transaction (t_customer_id transaction) (t_amount transaction)
          (t_transaction_type transaction) (t_description transaction)
          (t_created_at transaction)) ;;
     (if bool_decide (t_transaction_type transaction = VStr "payment")
      then update_customer_balance (t_customer_id transaction) (t_amount transaction) "add" ;;;
           ret tt
      else if bool_decide (t_transaction_type transaction = VStr "charge")
      then update_customer_balance (t_customer_id transaction) (t_amount transaction) "subtract" ;;;
           ret tt
      else ret tt) ;;;
     ret {[ "success" := RBool true; "transaction_id" := RVal (VNum transaction_id) ]}).

Definition get_customer_transactions (customer_id limit : Z) : M (gmap string robj) :=
  try_except
    (results <- execute_query (select_transactions customer_id limit) ;;
     ret {[ "success" := RBool true;
            "transactions" := RRows (map transaction_dict results) ]}).

Definition get_financial_summary (days : Z) : M (gmap string robj) :=
  try_except
    (now <- datetime_now ;;
     delta <- lift (timedelta days) ;;
     since_date <- lift (datetime_sub now delta) ;;
     revenue_result <- execute_query (select_sum "payment" since_date) ;;
     revenue_row <- first_row revenue_result ;;
     let total_revenue := py_or revenue_row 0 in
     charges_result <- execute_query (select_sum "charge" since_date) ;;
     charges_row <- first_row charges_result ;;
     let total_charges := py_or charges_row 0 in
     count_result <- execute_query (select_count_since since_date) ;;
     transaction_count <- first_row count_result ;;
     customer_result <- execute_query select_count_active ;;
     customer_count <- first_row customer_result ;;
     ret {[ "success" := RBool true;
            "summary" := RRow {[ "total_revenue" := VNum total_revenue;
                                 "total_charges" := VNum total_charges;
                                 "net_amount" := VNum (total_revenue - total_charges);
                                 "transaction_count" := VNum transaction_count;
                                 "active_customers" := VNum customer_count;
                                 "period_days" := VNum days ]} ]}).

Definition send_whatsapp_message (customer_id : Z) (message : string)
  : M (gmap string robj) :=
  try_except
    (customer_result <- get_customer customer_id ;;
     ok <- subscript customer_result "success" ;;
     if negb (robj_truthy ok) then ret customer_result else
     customer_obj <- subscript customer_result "customer" ;;
     customer <- as_dict customer_obj ;;
     let phone_number := dict_get customer "phone" (VStr "") in
     if negb (truthy phone_number)
     then ret (failure "Customer phone number not found")
     else
       whatsapp_result <- send_message phone_number message "text" ;;
       sent <- subscript whatsapp_result "success" ;;
       (if robj_truthy sent
        then now <- datetime_now ;;
             execute_insert (insert_message customer_id "text" message "outbound" now) ;;;
             ret tt
        else ret tt) ;;;
       ret whatsapp_result).

(** The three messages of a reminder, given the name and the quoted sum as
    the f-string renders them. *)
Definition thank_you_message (customer_name : string) : string :=
  "Olá " +:+ customer_name +:+ "! Sua conta está em dia. Obrigado pela confiança! 😊".

Definition amount_message (customer_name quoted : string) : string :=
  "Olá " +:+ customer_name +:+ "! Lembrando que você tem um pagamento de R$ "
  +:+ quoted +:+ " pendente. Por favor, regularize sua situação.".

Definition balance_message (customer_name quoted : string) : string :=
  "Olá " +:+ customer_name +:+ "! Seu saldo atual é de R$ "
  +:+ quoted +:+ ". Por favor, regularize sua situação.".

(** The message [send_payment_reminder] composes from the name and balance
    it read and from its argument [amount]. *)
Definition reminder_message (customer_name balance amount : value) : exn + string :=
  match le_zero balance with
  | inl e => inl e
  | inr true => inr (thank_you_message (py_str customer_name))
  | inr false =>
    if truthy amount
    then match format_field amount with
         | inl e => inl e
         | inr quoted => inr (amount_message (py_str customer_name) quoted)
         end
    else match format_field balance with
         | inl e => inl e
         | inr quoted => inr (balance_message (py_str customer_name) quoted)
         end
  end.

Definition send_payment_reminder (customer_id : Z) (amount : value)
  : M (gmap string robj) :=
  try_except
    (customer_result <- get_customer customer_id ;;
     ok <- subscript customer_result "success" ;;
     if negb (robj_truthy ok) then ret customer_result else
     customer_obj <- subscript customer_result "customer" ;;
     customer <- as_dict customer_obj ;;
     let customer_name := dict_get customer "name" (VStr "Cliente") in
     let balance := dict_get customer "current_balance" (VNum 0) in
     message <- lift (reminder_message customer_name balance amount) ;;
     send_whatsapp_message customer_id message).

Definition get_customer_messages (customer_id limit : Z) : M (gmap string robj) :=
  try_except
    (results <- execute_query (select_messages customer_id limit) ;;
     ret {[ "success" := RBool true; "messages" := RRows (map message_dict results) ]}).

(** The operations of the service, as the boundary layer invokes them. *)
Inductive operation :=
  | CreateCustomer (customer_data : gmap string value)
  | GetCustomer (customer_id : Z)
  | GetCustomers (status_filter : option string)
  | UpdateCustomerBalance (customer_id amount : value) (operation_name : string)
  | CreateTransaction (transaction_data : gmap string value)
  | GetCustomerTransactions (customer_id limit : Z)
  | GetFinancialSummary (days : Z)
  | SendWhatsappMessage (customer_id : Z) (message : string)
  | SendPaymentReminder (customer_id : Z) (amount : value)
  | GetCustomerMessages (customer_id limit : Z).

Definition run (o : operation) : M (gmap string robj) :=
  match o with
  | CreateCustomer d => create_customer d
  | GetCustomer c => get_customer c
  | GetCustomers s => get_customers s
  | UpdateCustomerBalance c a op => update_customer_balance c a op
  | CreateTransaction d => create_transaction d
  | GetCustomerTransactions c l => get_customer_transactions c l
  | GetFinancialSummary n => get_financial_summary n
  | SendWhatsappMessage c m => send_whatsapp_message c m
  | SendPaymentReminder c a => send_payment_reminder c a
  | GetCustomerMessages c l => get_customer_messages c l
  end.

(** ** A sample session

    Renderings and conversions to run the model with, and the customer of
    the repository's test script in a store of her own. *)

Definition sample_isoformat (t : Z) : string := pretty t.
Definition sample_text_of_num (z : Z) : string := pretty z.
Definition sample_num_of_text (s : string) : option Z := None.
Definition sample_cast_text (s : string) : Z := 0.

Definition maria : customer_row :=
  {| id := 1; name := "Maria Santos"; phone := "5511888888888";
     email := Some "maria@email.com"; whatsapp_id := Some "5511888888888";
     created_at := 738885 * MICROSECONDS_PER_DAY; status := Some "active";
     credit_limit := VNum 2000; current_balance := VNum 350 |}.

Definition maria_data : gmap string value :=
  {[ "name" := VStr "Maria Santos"; "phone" := VStr "5511888888888";
     "email" := VStr "maria@email.com"; "whatsapp_id" := VStr "5511888888888";
     "credit_limit" := VNum 2000 ]}.

Definition payment_data : gmap string value :=
  {[ "customer_id" := VNum 1; "amount" := VNum 500;
     "transaction_type" := VStr "payment";
     "description" := VStr "Test payment transaction" ]}.

Definition charge_data : gmap string value :=
  {[ "customer_id" := VNum 1; "amount" := VNum 150;
     "transaction_type" := VStr "charge";
     "description" := VStr "Test charge transaction" ]}.

Definition configured : WhatsAppAPI :=
  {| api_url := "https://graph.facebook.com/v18.0"; access_token := "token";
     phone_number_id := "100200300" |}.

Definition unconfigured : WhatsAppAPI :=
  {| api_url := ""; access_token := ""; phone_number_id := "" |}.

Definition joao : customer_row :=
  {| id := 2; name := "João WhatsApp Test"; phone := "5511999887766";
     email := Some "joao.whatsapp@test.com"; whatsapp_id := Some "";
     created_at := 738885 * MICROSECONDS_PER_DAY; status := Some "active";
     credit_limit := VNum 1500; current_balance := VNum (-250) |}.

Definition old_payment_row : transaction_row :=
  {| tx_id := 1; tx_customer_id := VNum 1; tx_amount := VNum 80;
     tx_transaction_type := "payment"; tx_description := Some "";
     tx_status := Some "pending";
     tx_created_at := 738800 * MICROSECONDS_PER_DAY; tx_processed_at := None |}.

Definition payment_row : transaction_row :=
  {| tx_id := 2; tx_customer_id := VNum 1; tx_amount := VNum 500;
     tx_transaction_type := "payment";
     tx_description := Some "Test payment transaction";
     tx_status := Some "pending";
     tx_created_at := 738880 * MICROSECONDS_PER_DAY; tx_processed_at := None |}.

Definition charge_row : transaction_row :=
  {| tx_id := 3; tx_customer_id := VNum 1; tx_amount := VNum 150;
     tx_transaction_type := "charge";
     tx_description := Some "Test charge transaction";
     tx_status := Some "pending";
     tx_created_at := 738881 * MICROSECONDS_PER_DAY; tx_processed_at := None |}.

Definition empty_store : database :=
  {| customers := []; transactions := []; whatsapp_messages := [] |}.

Definition maria_store : database :=
  {| customers := [maria]; transactions := []; whatsapp_messages := [] |}.

Definition ledger_store : database :=
  {| customers := [maria; joao];
     transactions := [old_payment_row; payment_row; charge_row];
     whatsapp_messages := [] |}.

(** A world on 2024-01-01 with a healthy store and a network that answers. *)
Definition sample_world (d : database) (api : WhatsAppAPI) : world :=
  {| db := d; clock := 738885 * MICROSECONDS_PER_DAY; faults := [];
     whatsapp := api; http := fun _ => NetJson "{}"; posted := [] |}.

(** ** What the statements below speak of *)

(** The row a lookup by identity returns: the first one with that key. *)
Definition find_customer (key : Z) (d : database) : option customer_row :=
  head (filter (fun r => id r = key) (customers d)).

Definition balance_of (key : Z) (d : database) : option value :=
  current_balance <$> find_customer key d.

(** The number an amount counts as in a sum. *)
Definition amount_number (v : value) : Z := default 0 (to_number v).

(** The sum of the amounts of the given transactions, 0 over none. *)
Definition total_amount (l : list transaction_row) : Z :=
  fold_right (fun t acc => amount_number (tx_amount t) + acc) 0 l.

(** The transactions of a type created at or after [since]. *)
Definition in_window (ty : string) (since : Z) (l : list transaction_row)
  : list transaction_row :=
  filter (fun t => tx_transaction_type t = ty /\ since <= tx_created_at t) l.

(** A computation that, when it returns, returns a value satisfying [P]. *)
Definition returns {A} (P : A -> Prop) (m : M A) : Prop :=
  forall w, match (m w).1 with
            | inr a => P a
            | inl _ => True
            end.

(** The uniform shape of a result: a boolean under [success], and nothing
    but the error message besides it when that boolean is false. *)
Definition well_formed (r : gmap string robj) : Prop :=
  exists b, r !! "success" = Some (RBool b)
            /\ (b = false -> exists msg, r = failure msg).

(** ** What the operations keep

    Relations between the world before and after a computation, and the
    conditions on the store they are used with. *)

(** A computation whose final world is always related to its first one. *)
Definition keeps {A} (R : world -> world -> Prop) (m : M A) : Prop :=
  forall w, R w (m w).2.

(** The operations that only read the store. *)
Definition is_query (o : operation) : bool :=
  match o with
  | GetCustomer _ | GetCustomers _ | GetCustomerTransactions _ _
  | GetFinancialSummary _ | GetCustomerMessages _ _ => true
  | _ => false
  end.

(** Nothing but the fault script differs. *)
Definition same_but_faults (w w' : world) : Prop :=
  exists f, w' = set_faults f w.

(** All of a customer's row but the balance. *)
Definition customer_identity (r : customer_row) :=
  (id r, name r, phone r, email r, whatsapp_id r, created_at r, status r,
   credit_limit r).

(** The second store holds what the first one held, possibly more rows
    after them, and possibly other balances. *)
Definition grows (d d' : database) : Prop :=
  map customer_identity (customers d) `prefix_of` map customer_identity (customers d')
  /\ transactions d `prefix_of` transactions d'
  /\ whatsapp_messages d `prefix_of` whatsapp_messages d'.

(** What the schema promises of a store: primary keys and phones are not
    repeated. *)
Definition store_ok (d : database) : Prop :=
  NoDup (map id (customers d))
  /\ NoDup (map phone (customers d))
  /\ NoDup (map tx_id (transactions d))
  /\ NoDup (map m_id (whatsapp_messages d)).

(** Rows in descending order of a key. *)
Definition descending {A} (key : A -> Z) (l : list A) : Prop :=
  StronglySorted (fun x y => key y <= key x) l.

(** More of the sample session: a customer registered without a phone, a
    logged message, requests with fields missing, a network that is down. *)

Definition ghost : customer_row :=
  {| id := 3; name := "Sem Telefone"; phone := ""; email := Some "";
     whatsapp_id := Some ""; created_at := 738885 * MICROSECONDS_PER_DAY;
     status := Some "active"; credit_limit := VNum 0; current_balance := VNum 0 |}.

Definition ghost_store : database :=
  {| customers := [maria; ghost]; transactions := []; whatsapp_messages := [] |}.

Definition sent_row : message_row :=
  {| m_id := 1; m_customer_id := VNum 1; m_message_type := "text";
     m_content := "Test message"; m_direction := "outbound";
     m_status := Some "sent"; m_created_at := 738884 * MICROSECONDS_PER_DAY |}.

Definition chat_store : database :=
  {| customers := [maria; joao];
     transactions := [old_payment_row; payment_row; charge_row];
     whatsapp_messages := [sent_row] |}.

Definition name_only_data : gmap string value := {[ "name" := VStr "Ana" ]}.

Definition refund_data : gmap string value :=
  {[ "customer_id" := VNum 7; "amount" := VNum 40;
     "transaction_type" := VStr "refund" ]}.

Definition orphan_data : gmap string value :=
  {[ "amount" := VNum 10; "transaction_type" := VStr "payment" ]}.

Definition offline_world (d : database) (api : WhatsAppAPI) : world :=
  {| db := d; clock := 738885 * MICROSECONDS_PER_DAY; faults := [];
     whatsapp := api; http := fun _ => NetRaise "Connection refused";
     posted := [] |}.

(** ** Running the store *)

Lemma set_db_same w : set_db (db w) w = w.
Proof. by destruct w. Qed.

Lemma connect_healthy w : faults w = [] -> connect w = (inr tt, w).
Proof. intros H. unfold connect. by rewrite H. Qed.

Lemma execute_healthy {A} (s : stmt A) w :
  faults w = [] ->
  execute s w = match s (db w) with
                | inl e => (inl e, w)
                | inr (a, d) => (inr a, set_db d w)
                end.
Proof. intros H. unfold execute, bind. by rewrite connect_healthy. Qed.

(** *** Balance updates *)

Lemma id_matches_num key k : id_matches key (VNum k) = bool_decide (k = key).
Proof.
  unfold id_matches. simpl.
  destruct (decide (k = key)) as [->|Hne].
  - by rewrite !bool_decide_eq_true_2.
  - rewrite !bool_decide_eq_false_2; [done..|]. congruence.
Qed.

Lemma find_customer_update (f : value -> value) key d :
  match update_balance f (VNum key) d with
  | inr (_, d') =>
      find_customer key d' =
      (fun r => set_current_balance (numeric_affinity (f (current_balance r))) r)
        <$> find_customer key d
      /\ transactions d' = transactions d
      /\ whatsapp_messages d' = whatsapp_messages d
  | inl _ => False
  end.
Proof.
  unfold update_balance, find_customer. simpl. split; [|done].
  induction (customers d) as [|r l IH]; [done|].
  rewrite fmap_cons, !filter_cons. rewrite id_matches_num.
  destruct (decide (id r = key)) as [E|E].
  - rewrite bool_decide_eq_true_2 by done. simpl.
    rewrite decide_True by done. done.
  - rewrite bool_decide_eq_false_2 by done.
    rewrite decide_False by done. apply IH.
Qed.

Lemma update_customer_balance_healthy customer_id amount operation w :
  faults w = [] ->
  exists d', balance_statement customer_id amount operation (db w) = inr ([], d')
    /\ update_customer_balance customer_id amount operation w
       = (inr {[ "success" := RBool true ]}, set_db d' w).
Proof.
  intros H. unfold update_customer_balance, try_except, bind, execute_query.
  rewrite execute_healthy by done.
  assert (exists d', balance_statement customer_id amount operation (db w) = inr ([], d'))
    as [d' Hd].
  { unfold balance_statement, update_balance. repeat case_match; eauto. }
  exists d'. by rewrite Hd.
Qed.


(** *** Recording a transaction *)

Lemma insert_transaction_customers p_cid p_amount p_type p_desc now d a d' :
  insert_transaction p_cid p_amount p_type p_desc now d = inr (a, d') ->
  customers d' = customers d /\ whatsapp_messages d' = whatsapp_messages d.
Proof.
  unfold insert_transaction. intros H.
  repeat case_match; simplify_eq; done.
Qed.

Lemma create_transaction_run (d : gmap string value) w :
  faults w = [] ->
  let ty := dict_get d "transaction_type" (VStr "") in
  let cid := dict_get d "customer_id" VNone in
  let amt := dict_get d "amount" (VNum 0) in
  match insert_transaction cid amt ty (dict_get d "description" (VStr "")) (clock w) (db w) with
  | inl e => create_transaction d w = (inr (failure (str_exn e)), w)
  | inr (tid, d1) =>
      exists d2,
        create_transaction d w
        = (inr {[ "success" := RBool true; "transaction_id" := RVal (VNum tid) ]},
           set_db d2 w)
        /\ (ty = VStr "payment" ->
            balance_statement cid amt "add" d1 = inr ([], d2))
        /\ (ty = VStr "charge" ->
            balance_statement cid amt "subtract" d1 = inr ([], d2))
        /\ (ty <> VStr "payment" -> ty <> VStr "charge" -> d2 = d1)
  end.
Proof.
  intros Hf ty cid amt.
  unfold create_transaction, try_except, bind, datetime_now, execute_insert. simpl.
  rewrite execute_healthy by done.
  fold ty cid amt.
  destruct (insert_transaction cid amt ty _ (clock w) (db w)) as [e|[tid d1]] eqn:Hi;
    [done|].
  assert (faults (set_db d1 w) = []) as Hf1 by done.
  destruct (decide (ty = VStr "payment")) as [Hp|Hp].
  - rewrite bool_decide_eq_true_2 by done.
    destruct (update_customer_balance_healthy cid amt "add" _ Hf1) as (d2 & Hd & ->).
    exists d2. simpl. split; [done|]. split; [done|]. split; [congruence|done].
  - rewrite bool_decide_eq_false_2 by done.
    destruct (decide (ty = VStr "charge")) as [Hc|Hc].
    + rewrite bool_decide_eq_true_2 by done.
      destruct (update_customer_balance_healthy cid amt "subtract" _ Hf1) as (d2 & Hd & ->).
      exists d2. simpl. split; [done|]. split; [done|]. split; [done|done].
    + rewrite bool_decide_eq_false_2 by done.
      exists d1. simpl. done.
Qed.

Lemma find_customer_customers key d d' :
  customers d' = customers d -> find_customer key d' = find_customer key d.
Proof. unfold find_customer. by intros ->. Qed.


(** *** Registering a customer *)

Lemma next_id_above (ids : list Z) x : x ∈ ids -> x < next_id ids.
Proof.
  unfold next_id. induction 1 as [x l|x y l _ IH]; simpl; lia.
Qed.

Lemma existsb_phone_false (l : list customer_row) p :
  (forall r, r ∈ l -> phone r <> p) ->
  existsb (fun r => bool_decide (phone r = p)) l = false.
Proof.
  induction l as [|r l IH]; intros H; simpl; [done|].
  rewrite bool_decide_eq_false_2 by (apply H; left).
  apply IH. intros r' Hr'. apply H. by right.
Qed.

Lemma filter_id_fresh (l : list customer_row) row :
  (forall r, r ∈ l -> id r <> id row) ->
  filter (fun r => id r = id row) (l ++ [row]) = [row].
Proof.
  intros H. rewrite filter_app.
  assert (filter (fun r => id r = id row) l = []) as ->.
  { induction l as [|r l IH]; [done|].
    rewrite filter_cons, decide_False by (apply H; left).
    apply IH. intros r' Hr'. apply H. by right. }
  rewrite filter_cons, decide_True by done. done.
Qed.

Lemma create_customer_run (d : gmap string value) w :
  faults w = [] ->
  match insert_customer (dict_get d "name" (VStr "")) (dict_get d "phone" (VStr ""))
          (dict_get d "email" (VStr "")) (dict_get d "whatsapp_id" (VStr ""))
          (clock w) (dict_get d "credit_limit" (VNum 0)) (db w) with
  | inl e => create_customer d w = (inr (failure (str_exn e)), w)
  | inr (cid, d1) =>
      create_customer d w
      = (inr {[ "success" := RBool true; "customer_id" := RVal (VNum cid) ]}, set_db d1 w)
  end.
Proof.
  intros Hf.
  unfold create_customer, try_except, bind, datetime_now, execute_insert. simpl.
  rewrite execute_healthy by done.
  by destruct (insert_customer _ _ _ _ _ _ _) as [e|[cid d1]].
Qed.

Lemma get_customer_run key w :
  faults w = [] ->
  get_customer key w
  = (inr match find_customer key (db w) with
         | Some r => {[ "success" := RBool true; "customer" := RRow (customer_dict r) ]}
         | None => failure "Customer not found"
         end, w).
Proof.
  intros Hf.
  unfold get_customer, try_except, bind, execute_query.
  rewrite execute_healthy by done.
  unfold select_customer, find_customer. rewrite set_db_same.
  by destruct (filter _ _).
Qed.


Lemma dict_get_insert_ne (d : gmap string value) k k' v dflt :
  k <> k' -> dict_get (<[k:=v]> d) k' dflt = dict_get d k' dflt.
Proof. intros H. unfold dict_get. by rewrite lookup_insert_ne. Qed.

(** C10.  For every input dictionary, entries under "status",
    "current_balance" and "created_at" change nothing in what
    [create_customer] does; and whenever it succeeds, the one row it stores
    has status "active", current balance 0 and the server's clock as its
    creation timestamp, while a failure stores no row. *)
Theorem create_customer_ignores_extra_fields (d : gmap string value) (vs vb vc : value) w :
  create_customer
    (<["status":=vs]> (<["current_balance":=vb]> (<["created_at":=vc]> d))) w
  = create_customer d w
  /\ exists r w',
       create_customer d w = (inr r, w')
       /\ ((r !! "success" = Some (RBool true)
            /\ exists row,
                 customers (db w') = customers (db w) ++ [row]
                 /\ status row = Some "active"
                 /\ current_balance row = VNum 0
                 /\ created_at row = clock w)
           \/ (r !! "success" = Some (RBool false)
               /\ customers (db w') = customers (db w))).
Proof.
  split.
  - unfold create_customer. by rewrite !dict_get_insert_ne.
  - unfold create_customer, try_except, bind, datetime_now, execute_insert,
      execute, bind, connect.
    destruct (faults w) as [|[msg|] rest]; simpl.
    + destruct (insert_customer _ _ _ _ _ _ _) as [err|[key d1]] eqn:Hi; simpl.
      * eexists _, _. split; [done|]. right. by simplify_map_eq.
      * eexists _, _. split; [done|]. left. split; [by simplify_map_eq|].
        unfold insert_customer in Hi. repeat case_match; simplify_eq.
        simpl. eauto.
    + eexists _, _. split; [done|]. right. by simplify_map_eq.
    + destruct (insert_customer _ _ _ _ _ _ _) as [err|[key d1]] eqn:Hi; simpl.
      * eexists _, _. split; [done|]. right. by simplify_map_eq.
      * eexists _, _. split; [done|]. left. split; [by simplify_map_eq|].
        unfold insert_customer in Hi. repeat case_match; simplify_eq.
        simpl. eauto.
Qed.

(** *** The financial summary *)

Lemma py_or_zero x : py_or x 0 = default 0 x.
Proof.
  destruct x as [z|]; simpl; [|done].
  destruct (Z.eqb_spec z 0); congruence.
Qed.

Lemma sql_sum_total (l : list transaction_row) :
  py_or (sql_sum (map tx_amount l)) 0 = total_amount l.
Proof.
  rewrite py_or_zero. unfold sql_sum, total_amount.
  assert (fold_right Z.add 0 (omap to_number (map tx_amount l))
          = fold_right (fun t acc => amount_number (tx_amount t) + acc) 0 l) as <-.
  { induction l as [|t l IH]; [done|]. simpl. rewrite <- IH.
    unfold amount_number. by destruct (to_number (tx_amount t)). }
  by destruct (omap to_number (map tx_amount l)).
Qed.

Lemma timedelta_in_range now days :
  datetime_valid now ->
  datetime_valid (now - days * MICROSECONDS_PER_DAY) ->
  timedelta days = inr (days * MICROSECONDS_PER_DAY)
  /\ datetime_sub now (days * MICROSECONDS_PER_DAY)
     = inr (now - days * MICROSECONDS_PER_DAY).
Proof.
  unfold datetime_valid, timedelta, datetime_sub, DATETIME_END, TIMEDELTA_MAX_DAYS,
    MICROSECONDS_PER_DAY.
  intros Hn Hs. split.
  - rewrite (proj2 (Z.leb_le _ _)) by lia. done.
  - rewrite (proj2 (Z.leb_le _ _)), (proj2 (Z.ltb_lt _ _)) by lia. done.
Qed.


(** *** The shape of results *)

Lemma returns_ret {A} (P : A -> Prop) a : P a -> returns P (ret a).
Proof. intros H w. done. Qed.

Lemma returns_raise {A} (P : A -> Prop) e : returns P (raise e).
Proof. intros w. done. Qed.

Lemma returns_bind {A B} (P : A -> Prop) (Q : B -> Prop) (m : M A) (k : A -> M B) :
  returns P m -> (forall a, P a -> returns Q (k a)) -> returns Q (bind m k).
Proof.
  intros Hm Hk w. unfold bind. specialize (Hm w).
  destruct (m w) as [[e|a] w']; simpl in *; [done|]. by apply Hk.
Qed.

Lemma returns_any {A} (m : M A) : returns (fun _ => True) m.
Proof. intros w. by destruct (m w).1. Qed.

Lemma returns_seq {A B} (Q : B -> Prop) (m : M A) (k : A -> M B) :
  (forall a, returns Q (k a)) -> returns Q (bind m k).
Proof. intros Hk. apply (returns_bind (fun _ => True)); [apply returns_any|auto]. Qed.

Lemma well_formed_failure msg : well_formed (failure msg).
Proof. exists false. split; [done|]. eauto. Qed.

Lemma well_formed_success (r : gmap string robj) :
  well_formed (<["success" := RBool true]> r).
Proof. exists true. split; [by rewrite lookup_insert_eq|done]. Qed.

Lemma well_formed_success_only :
  well_formed ({[ "success" := RBool true ]} : gmap string robj).
Proof. exists true. split; [done|done]. Qed.

Lemma try_except_total (body : M (gmap string robj)) w :
  returns well_formed body ->
  exists r w', try_except body w = (inr r, w') /\ well_formed r.
Proof.
  intros H. unfold try_except. specialize (H w).
  destruct (body w) as [[e|r] w']; simpl in *.
  - eexists _, _. split; [done|]. apply well_formed_failure.
  - eauto.
Qed.

Lemma returns_try_except (body : M (gmap string robj)) :
  returns well_formed body -> returns well_formed (try_except body).
Proof.
  intros H w. destruct (try_except_total body w H) as (r & w' & -> & Hr). done.
Qed.

Create HintDb shape.

#[local] Hint Resolve well_formed_failure well_formed_success
  well_formed_success_only : shape.

Ltac shape_step :=
  lazymatch goal with
  | |- returns _ (try_except _) => apply returns_try_except
  | |- returns _ (ret _) => apply returns_ret; auto with shape
  | |- returns _ (raise _) => apply returns_raise
  | |- returns _ (bind _ _) => apply returns_seq; intros
  | |- returns _ (match ?x with _ => _ end) => destruct x
  end.

Lemma send_message_shape to message message_type :
  returns well_formed (send_message to message message_type).
Proof.
  intros w. unfold send_message.
  destruct (_ || _); simpl; [apply well_formed_failure|].
  match goal with |- context [try_except ?b w] =>
    destruct (try_except_total b w) as (r & w' & -> & Hr) end; [|done].
  apply returns_seq. intros data. apply returns_ret, well_formed_success.
Qed.

Lemma create_customer_shape d : returns well_formed (create_customer d).
Proof. unfold create_customer. repeat shape_step. Qed.

Lemma get_customer_shape key : returns well_formed (get_customer key).
Proof.
  unfold get_customer. repeat shape_step.
Qed.

Lemma get_customers_shape s : returns well_formed (get_customers s).
Proof. unfold get_customers. repeat shape_step. Qed.

Lemma update_customer_balance_shape c a o :
  returns well_formed (update_customer_balance c a o).
Proof. unfold update_customer_balance. repeat shape_step. Qed.

Lemma create_transaction_shape d : returns well_formed (create_transaction d).
Proof. unfold create_transaction. repeat shape_step. Qed.

Lemma get_customer_transactions_shape c l :
  returns well_formed (get_customer_transactions c l).
Proof. unfold get_customer_transactions. repeat shape_step. Qed.

Lemma get_financial_summary_shape n : returns well_formed (get_financial_summary n).
Proof. unfold get_financial_summary. repeat shape_step. Qed.

Lemma get_customer_messages_shape c l :
  returns well_formed (get_customer_messages c l).
Proof. unfold get_customer_messages. repeat shape_step. Qed.

Lemma send_whatsapp_message_shape key message :
  returns well_formed (send_whatsapp_message key message).
Proof.
  unfold send_whatsapp_message. apply returns_try_except.
  eapply returns_bind; [apply get_customer_shape|]. intros customer_result Hc.
  apply returns_seq. intros ok.
  destruct (negb (robj_truthy ok)); [by apply returns_ret|].
  apply returns_seq. intros customer_obj. apply returns_seq. intros customer.
  destruct (negb _); [apply returns_ret, well_formed_failure|].
  eapply returns_bind; [apply send_message_shape|]. intros whatsapp_result Hw.
  apply returns_seq. intros sent. apply returns_seq. intros _.
  by apply returns_ret.
Qed.

Lemma send_payment_reminder_shape key amount :
  returns well_formed (send_payment_reminder key amount).
Proof.
  unfold send_payment_reminder. apply returns_try_except.
  eapply returns_bind; [apply get_customer_shape|]. intros customer_result Hc.
  apply returns_seq. intros ok.
  destruct (negb (robj_truthy ok)); [by apply returns_ret|].
  apply returns_seq. intros customer_obj. apply returns_seq. intros customer.
  apply returns_seq. intros message. apply send_whatsapp_message_shape.
Qed.

Lemma returns_total (m : M (gmap string robj)) w :
  (exists body, m = try_except body) ->
  returns well_formed m ->
  exists r w', m w = (inr r, w') /\ well_formed r.
Proof.
  intros [body ->] H. specialize (H w). unfold try_except in *.
  destruct (body w) as [[e|r] w']; simpl in *; eauto.
Qed.


(** *** The gateway and the audit log *)

Lemma failure_success msg : failure msg !! "success" = Some (RBool false).
Proof. done. Qed.

Lemma found_success (c : gmap string value) :
  ({[ "success" := RBool true; "customer" := RRow c ]} : gmap string robj) !! "success"
  = Some (RBool true).
Proof. done. Qed.

Lemma found_customer (c : gmap string value) :
  ({[ "success" := RBool true; "customer" := RRow c ]} : gmap string robj) !! "customer"
  = Some (RRow c).
Proof. done. Qed.

Lemma customer_dict_phone r : dict_get (customer_dict r) "phone" (VStr "") = VStr (phone r).
Proof. done. Qed.

Lemma customer_dict_name r :
  dict_get (customer_dict r) "name" (VStr "Cliente") = VStr (name r).
Proof. done. Qed.

Lemma customer_dict_balance r :
  dict_get (customer_dict r) "current_balance" (VNum 0) = current_balance r.
Proof. done. Qed.

Lemma send_message_run to message message_type w :
  send_message to message message_type w
  = if String.eqb (api_url (whatsapp w)) "" || String.eqb (access_token (whatsapp w)) ""
    then (inr (failure "WhatsApp API not configured"), w)
    else
      let rq := message_request (whatsapp w) to message message_type in
      (inr match http w rq with
           | NetJson data => {[ "success" := RBool true; "data" := RData data ]}
           | NetRaise msg => failure msg
           end, set_posted (posted w ++ [rq]) w).
Proof.
  unfold send_message. destruct (_ || _); [done|].
  unfold try_except, bind, requests_post. simpl.
  by destruct (http w _).
Qed.

Lemma send_message_unconfigured to message message_type w :
  api_url (whatsapp w) = "" \/ access_token (whatsapp w) = "" ->
  send_message to message message_type w
  = (inr (failure "WhatsApp API not configured"), w).
Proof.
  intros H. rewrite send_message_run.
  destruct H as [-> | ->]; simpl; [done|]. by rewrite orb_true_r.
Qed.

(** A lookup touches the fault script only. *)
Lemma get_customer_cases key w :
  exists f,
    (exists msg, get_customer key w = (inr (failure msg), set_faults f w))
    \/ (exists r, get_customer key w
                  = (inr {[ "success" := RBool true; "customer" := RRow (customer_dict r) ]},
                     set_faults f w)).
Proof.
  unfold get_customer, try_except, bind, execute_query, execute, bind, connect,
    select_customer.
  destruct w as [d now fs api net sent]. simpl.
  destruct fs as [|[msg|] rest]; simpl.
  - exists []. destruct (filter _ _); [left|right]; eexists; done.
  - exists rest. left. eauto.
  - exists rest. destruct (filter _ _); [left|right]; eexists; done.
Qed.

(** C3.  When the gateway's endpoint URL or its access credential is unset,
    [send_message] returns the failure "WhatsApp API not configured" for
    every destination and body and leaves the world as it was (no request is
    posted), and [send_whatsapp_message] in that state adds no row to
    [whatsapp_messages] and posts no request, for every customer identity
    and whatever the store does. *)
Theorem unconfigured_gateway_sends_nothing to key message message_type w :
  api_url (whatsapp w) = "" \/ access_token (whatsapp w) = "" ->
  send_message to message message_type w
  = (inr (failure "WhatsApp API not configured"), w)
  /\ whatsapp_messages (db (send_whatsapp_message key message w).2)
     = whatsapp_messages (db w)
  /\ posted (send_whatsapp_message key message w).2 = posted w.
Proof.
  intros Hcfg. split; [by apply send_message_unconfigured|].
  destruct (get_customer_cases key w) as (f & [(msg & Hg) | (r & Hg)]);
    unfold send_whatsapp_message, try_except, bind; rewrite Hg;
    unfold subscript.
  - rewrite failure_success. done.
  - rewrite found_success. simpl. rewrite found_customer. simpl.
    rewrite customer_dict_phone.
    destruct (truthy (VStr (phone r))); simpl; [|done].
    rewrite send_message_unconfigured by done.
    unfold subscript. rewrite failure_success. done.
Qed.


(** *** Payment reminders *)

Lemma append_inv_head (s a b : string) : s +:+ a = s +:+ b -> a = b.
Proof.
  induction s as [|c s IH]; [done|]. intros H. apply IH.
  change (String c (s +:+ a) = String c (s +:+ b)) in H. congruence.
Qed.

Lemma thank_you_not_amount customer_name quoted :
  thank_you_message customer_name <> amount_message customer_name quoted.
Proof.
  unfold thank_you_message, amount_message. intros H.
  apply append_inv_head, append_inv_head in H. cbv in H. discriminate.
Qed.

Lemma thank_you_not_balance customer_name quoted :
  thank_you_message customer_name <> balance_message customer_name quoted.
Proof.
  unfold thank_you_message, balance_message. intros H.
  apply append_inv_head, append_inv_head in H. cbv in H. discriminate.
Qed.

Lemma amount_not_balance customer_name quoted quoted' :
  amount_message customer_name quoted <> balance_message customer_name quoted'.
Proof.
  unfold amount_message, balance_message. intros H.
  apply append_inv_head, append_inv_head in H. cbv in H. discriminate.
Qed.

Lemma send_whatsapp_message_returns key message w :
  exists r w', send_whatsapp_message key message w = (inr r, w').
Proof.
  unfold send_whatsapp_message, try_except.
  match goal with |- context [match ?b w with _ => _ end] =>
    destruct (b w) as [[e|r] w'] end; eauto.
Qed.

Lemma send_payment_reminder_run key amount w r0 :
  faults w = [] ->
  find_customer key (db w) = Some r0 ->
  send_payment_reminder key amount w
  = match reminder_message (VStr (name r0)) (current_balance r0) amount with
    | inl e => (inr (failure (str_exn e)), w)
    | inr message => send_whatsapp_message key message w
    end.
Proof.
  intros Hf Hr. unfold send_payment_reminder.
  unfold try_except at 1. unfold bind at 1.
  rewrite get_customer_run, Hr by done.
  unfold bind at 1. unfold subscript at 1. rewrite found_success.
  unfold ret at 1. change (negb (robj_truthy (RBool true))) with false.
  cbv beta iota.
  unfold bind at 1. unfold subscript at 1. rewrite found_customer.
  unfold ret at 1. unfold bind at 1. unfold as_dict, ret at 1. cbv beta iota.
  rewrite customer_dict_name, customer_dict_balance.
  unfold bind, lift.
  destruct (reminder_message _ _ _) as [e|message]; [done|].
  by destruct (send_whatsapp_message_returns key message w) as (r & w' & ->).
Qed.

(** C5.  With a healthy store, for an existing customer with balance [b] and
    every [amount] argument (absent or not), [send_payment_reminder] sends
    what [reminder_message] composes, and the message composed is the
    thank-you message exactly when [b <= 0]: the argument has no part in
    that choice. *)
Theorem reminder_thanks_iff_settled key amount w r0 b :
  faults w = [] ->
  find_customer key (db w) = Some r0 ->
  current_balance r0 = VNum b ->
  send_payment_reminder key amount w
  = match reminder_message (VStr (name r0)) (VNum b) amount with
    | inl e => (inr (failure (str_exn e)), w)
    | inr message => send_whatsapp_message key message w
    end
  /\ (reminder_message (VStr (name r0)) (VNum b) amount
      = inr (thank_you_message (name r0)) <-> b <= 0).
Proof.
  intros Hf Hr Hb. split.
  - by rewrite (send_payment_reminder_run key amount w r0), Hb.
  - unfold reminder_message. simpl.
    destruct (Z.leb_spec b 0) as [Hle|Hgt].
    + split; [done|done].
    + split; [|lia]. intros H. exfalso.
      destruct (truthy amount).
      * destruct (format_field amount) as [e|quoted]; [done|].
        by eapply thank_you_not_amount; simplify_eq.
      * by eapply thank_you_not_balance; simplify_eq.
Qed.


(** *** Relations every step keeps *)

Section Keeps.

Variable R : world -> world -> Prop.
Hypothesis R_refl : forall w, R w w.
Hypothesis R_trans : forall w1 w2 w3, R w1 w2 -> R w2 w3 -> R w1 w3.
Hypothesis R_faults : forall w f, R w (set_faults f w).
Hypothesis R_posted : forall w p, R w (set_posted p w).
Hypothesis R_insert_customer :
  forall w p1 p2 p3 p4 now p5 a d',
    insert_customer p1 p2 p3 p4 now p5 (db w) = inr (a, d') -> R w (set_db d' w).
Hypothesis R_update_balance :
  forall w f p a d', update_balance f p (db w) = inr (a, d') -> R w (set_db d' w).
Hypothesis R_insert_transaction :
  forall w p1 p2 p3 p4 now a d',
    insert_transaction p1 p2 p3 p4 now (db w) = inr (a, d') -> R w (set_db d' w).
Hypothesis R_insert_message :
  forall w p1 p2 p3 p4 now a d',
    insert_message p1 p2 p3 p4 now (db w) = inr (a, d') -> R w (set_db d' w).

Lemma keeps_ret {A} (a : A) : keeps R (ret a).
Proof. intros w. apply R_refl. Qed.

Lemma keeps_raise {A} e : keeps R (@raise A e).
Proof. intros w. apply R_refl. Qed.

Lemma keeps_lift {A} (r : exn + A) : keeps R (lift r).
Proof. intros w. apply R_refl. Qed.

Lemma keeps_now : keeps R datetime_now.
Proof. intros w. apply R_refl. Qed.

Lemma keeps_subscript r k : keeps R (subscript r k).
Proof. intros w. unfold subscript. destruct (r !! k); apply R_refl. Qed.

Lemma keeps_as_dict o : keeps R (as_dict o).
Proof. intros w. destruct o; apply R_refl. Qed.

Lemma keeps_first_row {A} (l : list A) : keeps R (first_row l).
Proof. intros w. destruct l; apply R_refl. Qed.

Lemma keeps_bind {A B} (m : M A) (k : A -> M B) :
  keeps R m -> (forall a, keeps R (k a)) -> keeps R (bind m k).
Proof.
  intros Hm Hk w. unfold bind. specialize (Hm w).
  destruct (m w) as [[e|a] w1]; simpl in *; [done|].
  eapply R_trans; [exact Hm|apply Hk].
Qed.

Lemma keeps_try_except body : keeps R body -> keeps R (try_except body).
Proof.
  intros H w. unfold try_except. specialize (H w).
  by destruct (body w) as [[e|r] w1].
Qed.

Lemma keeps_execute {A} (s : stmt A) :
  (forall w a d', s (db w) = inr (a, d') -> R w (set_db d' w)) ->
  keeps R (execute s).
Proof.
  intros Hs w. unfold execute, bind, connect.
  destruct (faults w) as [|[msg|] rest] eqn:Hf; simpl.
  - destruct (s (db w)) as [e|[a d']] eqn:E; simpl; [apply R_refl|by eapply Hs].
  - apply R_faults.
  - destruct (s (db w)) as [e|[a d']] eqn:E; simpl; [apply R_faults|].
    eapply R_trans; [apply (R_faults w rest)|]. by eapply (Hs (set_faults rest w)).
Qed.

(** A statement that reads. *)
Lemma keeps_select {A} (s : stmt A) :
  (forall d a d', s d = inr (a, d') -> d' = d) -> keeps R (execute s).
Proof.
  intros Hs. apply keeps_execute. intros w a d' E.
  rewrite (Hs _ _ _ E), set_db_same. apply R_refl.
Qed.

Ltac keeps_step :=
  lazymatch goal with
  | |- keeps _ (try_except _) => apply keeps_try_except
  | |- keeps _ (bind _ _) => apply keeps_bind; [|intros]
  | |- keeps _ (ret _) => apply keeps_ret
  | |- keeps _ (raise _) => apply keeps_raise
  | |- keeps _ (lift _) => apply keeps_lift
  | |- keeps _ datetime_now => apply keeps_now
  | |- keeps _ (subscript _ _) => apply keeps_subscript
  | |- keeps _ (as_dict _) => apply keeps_as_dict
  | |- keeps _ (first_row _) => apply keeps_first_row
  | |- keeps _ (execute_query _) => unfold execute_query
  | |- keeps _ (execute_insert _) => unfold execute_insert
  | |- keeps _ (execute (select_customer _)) =>
      apply keeps_select; unfold select_customer; intros; by simplify_eq
  | |- keeps _ (execute (select_customers _)) =>
      apply keeps_select; unfold select_customers; intros; by simplify_eq
  | |- keeps _ (execute (select_transactions _ _)) =>
      apply keeps_select; unfold select_transactions; intros; by simplify_eq
  | |- keeps _ (execute (select_messages _ _)) =>
      apply keeps_select; unfold select_messages; intros; by simplify_eq
  | |- keeps _ (execute (select_sum _ _)) =>
      apply keeps_select; unfold select_sum; intros; by simplify_eq
  | |- keeps _ (execute (select_count_since _)) =>
      apply keeps_select; unfold select_count_since; intros; by simplify_eq
  | |- keeps _ (execute select_count_active) =>
      apply keeps_select; unfold select_count_active; intros; by simplify_eq
  | |- keeps _ (if ?b then _ else _) => destruct b
  | |- keeps _ (match ?x with _ => _ end) => destruct x
  end.

Lemma keeps_get_customer key : keeps R (get_customer key).
Proof. unfold get_customer. repeat keeps_step. Qed.

Lemma keeps_get_customers s : keeps R (get_customers s).
Proof. unfold get_customers. repeat keeps_step. Qed.

Lemma keeps_get_customer_transactions key limit :
  keeps R (get_customer_transactions key limit).
Proof. unfold get_customer_transactions. repeat keeps_step. Qed.

Lemma keeps_get_customer_messages key limit :
  keeps R (get_customer_messages key limit).
Proof. unfold get_customer_messages. repeat keeps_step. Qed.

Lemma keeps_get_financial_summary days : keeps R (get_financial_summary days).
Proof. unfold get_financial_summary. repeat keeps_step. Qed.

Lemma keeps_send_message to message message_type :
  keeps R (send_message to message message_type).
Proof.
  intros w. rewrite send_message_run.
  destruct (_ || _); simpl; [apply R_refl|apply R_posted].
Qed.

Lemma keeps_create_customer d : keeps R (create_customer d).
Proof.
  unfold create_customer. repeat keeps_step.
  apply keeps_execute. intros. by eapply R_insert_customer.
Qed.

Lemma keeps_update_customer_balance c a o : keeps R (update_customer_balance c a o).
Proof.
  unfold update_customer_balance. repeat keeps_step.
  apply keeps_execute. unfold balance_statement. intros w r d' E.
  repeat case_match; by eapply R_update_balance.
Qed.

Lemma keeps_create_transaction d : keeps R (create_transaction d).
Proof.
  unfold create_transaction. repeat keeps_step;
    try apply keeps_update_customer_balance.
  apply keeps_execute. intros. by eapply R_insert_transaction.
Qed.

Lemma keeps_send_whatsapp_message key message :
  keeps R (send_whatsapp_message key message).
Proof.
  unfold send_whatsapp_message. repeat keeps_step;
    try apply keeps_get_customer; try apply keeps_send_message.
  apply keeps_execute. intros. by eapply R_insert_message.
Qed.

Lemma keeps_send_payment_reminder key amount :
  keeps R (send_payment_reminder key amount).
Proof.
  unfold send_payment_reminder. repeat keeps_step;
    try apply keeps_get_customer; try apply keeps_send_whatsapp_message.
Qed.

Lemma keeps_run o : keeps R (run o).
Proof.
  destruct o; simpl;
    auto using keeps_create_customer, keeps_get_customer, keeps_get_customers,
      keeps_update_customer_balance, keeps_create_transaction,
      keeps_get_customer_transactions, keeps_get_financial_summary,
      keeps_send_whatsapp_message, keeps_send_payment_reminder,
      keeps_get_customer_messages.
Qed.

End Keeps.

(** *** Queries are read-only *)

Lemma same_but_faults_refl w : same_but_faults w w.
Proof. exists (faults w). by destruct w. Qed.

Lemma same_but_faults_trans w1 w2 w3 :
  same_but_faults w1 w2 -> same_but_faults w2 w3 -> same_but_faults w1 w3.
Proof. intros [f ->] [g ->]. by exists g. Qed.

Lemma same_but_faults_set w f : same_but_faults w (set_faults f w).
Proof. by exists f. Qed.

(** X1.  The five operations that only read ([get_customer],
    [get_customers], [get_customer_transactions], [get_financial_summary],
    [get_customer_messages]) leave the tables, the clock, the gateway and
    the list of posted requests as they were, in every world: at most the
    store's fault script is consumed. *)
Theorem queries_change_nothing o w :
  is_query o = true -> same_but_faults w (run o w).2.
Proof.
  pose proof same_but_faults_refl. pose proof same_but_faults_trans.
  pose proof same_but_faults_set.
  destruct o; simpl; intros Hq; try discriminate.
  - by apply keeps_get_customer.
  - by apply keeps_get_customers.
  - by apply keeps_get_customer_transactions.
  - by apply keeps_get_financial_summary.
  - by apply keeps_get_customer_messages.
Qed.

(** *** Operations only append *)

Lemma grows_refl d : grows d d.
Proof. by repeat split. Qed.

Lemma grows_trans d1 d2 d3 : grows d1 d2 -> grows d2 d3 -> grows d1 d3.
Proof.
  intros (A1 & B1 & C1) (A2 & B2 & C2).
  repeat split; by etrans.
Qed.

Lemma insert_customer_appends p1 p2 p3 p4 now p5 d a d' :
  insert_customer p1 p2 p3 p4 now p5 d = inr (a, d') ->
  exists row,
    customers d' = customers d ++ [row]
    /\ id row = a /\ a = next_id (map id (customers d))
    /\ (forall r, r ∈ customers d -> phone r <> phone row)
    /\ transactions d' = transactions d
    /\ whatsapp_messages d' = whatsapp_messages d.
Proof.
  unfold insert_customer. intros H.
  destruct (not_null _ (text_affinity p1)) as [?|nm]; [done|].
  destruct (not_null _ (text_affinity p2)) as [?|ph]; [done|].
  destruct (existsb _ _) eqn:E; [done|]. simplify_eq.
  eexists. repeat split; try done. simpl. intros r Hr Heq.
  assert (existsb (fun r => bool_decide (phone r = ph)) (customers d) = true);
    [|congruence].
  apply existsb_exists. exists r. split; [by apply list_elem_of_In|].
  by apply bool_decide_eq_true_2.
Qed.

Lemma insert_transaction_appends p1 p2 p3 p4 now d a d' :
  insert_transaction p1 p2 p3 p4 now d = inr (a, d') ->
  exists row,
    transactions d' = transactions d ++ [row]
    /\ tx_id row = a /\ a = next_id (map tx_id (transactions d))
    /\ tx_customer_id row = numeric_affinity p1
    /\ tx_amount row = numeric_affinity p2
    /\ text_affinity p3 = Some (tx_transaction_type row)
    /\ tx_status row = Some "pending"
    /\ tx_created_at row = now
    /\ customers d' = customers d
    /\ whatsapp_messages d' = whatsapp_messages d.
Proof.
  unfold insert_transaction. intros H.
  destruct (not_null_value _ (numeric_affinity p1)) as [?|cid] eqn:E1; [done|].
  destruct (not_null_value _ (numeric_affinity p2)) as [?|amt] eqn:E2; [done|].
  destruct (not_null _ (text_affinity p3)) as [?|ty] eqn:E3; [done|].
  simplify_eq. eexists. repeat split; simpl.
  - unfold not_null_value in E1. by destruct (numeric_affinity p1); simplify_eq.
  - unfold not_null_value in E2. by destruct (numeric_affinity p2); simplify_eq.
  - unfold not_null in E3. by destruct (text_affinity p3); simplify_eq.
Qed.

Lemma update_balance_identity f p d a d' :
  update_balance f p d = inr (a, d') ->
  map customer_identity (customers d') = map customer_identity (customers d)
  /\ transactions d' = transactions d
  /\ whatsapp_messages d' = whatsapp_messages d.
Proof.
  unfold update_balance. intros H. simplify_eq. simpl. split; [|done].
  rewrite map_map. apply map_ext. intros r. by destruct (id_matches _ _).
Qed.

(** X2.  No operation deletes or rewrites what is stored: after any
    operation in any world the transactions and the logged messages are the
    old ones followed by new ones, and so are the customers in every column
    but the balance. *)
Theorem operations_only_append o w : grows (db w) (db (run o w).2).
Proof.
  apply (keeps_run (fun w w' => grows (db w) (db w'))).
  - intros ?. apply grows_refl.
  - intros ???. apply grows_trans.
  - intros ??. apply grows_refl.
  - intros ??. apply grows_refl.
  - intros * E. apply insert_customer_appends in E as (row & Hc & _ & _ & _ & Ht & Hm).
    unfold grows. simpl. rewrite Hc, Ht, Hm, map_app.
    split; [by apply prefix_app_r|done].
  - intros * E. apply update_balance_identity in E as (Hc & Ht & Hm).
    unfold grows. simpl. by rewrite Hc, Ht, Hm.
  - intros * E. apply insert_transaction_appends in E
      as (row & Ht & _ & _ & _ & _ & _ & _ & _ & Hc & Hm).
    unfold grows. simpl. rewrite Hc, Ht, Hm.
    split; [done|]. split; [by apply prefix_app_r|done].
  - intros * E. unfold insert_message in E. simplify_eq.
    unfold grows. simpl. split; [done|]. split; [done|]. by apply prefix_app_r.
Qed.

(** *** Keys stay unique *)

Lemma next_id_fresh (ids : list Z) : next_id ids ∉ ids.
Proof. intros H. apply next_id_above in H. lia. Qed.

Lemma NoDup_snoc {A} (l : list A) x : NoDup l -> x ∉ l -> NoDup (l ++ [x]).
Proof.
  intros Hl Hx. apply NoDup_app. split; [done|]. split; [|apply NoDup_singleton].
  intros y Hy Hy'. apply list_elem_of_singleton in Hy'. by subst.
Qed.

Lemma identity_keys (l l' : list customer_row) :
  map customer_identity l = map customer_identity l' ->
  map id l = map id l' /\ map phone l = map phone l'.
Proof.
  intros H. split.
  - assert (forall l, map id l
                      = map (fun t => t.1.1.1.1.1.1.1) (map customer_identity l)) as E
      by (intros; by rewrite map_map).
    by rewrite !E, H.
  - assert (forall l, map phone l
                      = map (fun t => t.1.1.1.1.1.2) (map customer_identity l)) as E
      by (intros; by rewrite map_map).
    by rewrite !E, H.
Qed.

(** X3.  Every operation keeps the keys of the store unique: if no
    customer identity, customer phone, transaction identity or message
    identity is repeated before an operation, none is repeated after it. *)
Theorem operations_keep_keys_unique o w :
  store_ok (db w) -> store_ok (db (run o w).2).
Proof.
  apply (keeps_run (fun w w' => store_ok (db w) -> store_ok (db w'))).
  - done.
  - auto.
  - done.
  - done.
  - intros * E (Hi & Hp & Ht & Hm).
    apply insert_customer_appends in E as (row & Hc & Hid & Hnext & Hph & Ht' & Hm').
    unfold store_ok. simpl. rewrite Hc, Ht', Hm', !map_app. simpl.
    repeat split; try done.
    + apply NoDup_snoc; [done|]. rewrite Hid, Hnext. apply next_id_fresh.
    + apply NoDup_snoc; [done|]. intros Hin.
      apply list_elem_of_fmap in Hin as (r & Heq & Hr). by apply (Hph r).
  - intros * E (Hi & Hp & Ht & Hm).
    apply update_balance_identity in E as (Hc & Ht' & Hm').
    unfold store_ok. simpl. rewrite Ht', Hm'.
    destruct (identity_keys _ _ Hc) as [-> ->]. done.
  - intros * E (Hi & Hp & Ht & Hm).
    apply insert_transaction_appends in E
      as (row & Ht' & Hid & Hnext & _ & _ & _ & _ & _ & Hc & Hm').
    unfold store_ok. simpl. rewrite Hc, Ht', Hm', map_app. simpl.
    repeat split; try done.
    apply NoDup_snoc; [done|]. rewrite Hid, Hnext. apply next_id_fresh.
  - intros * E (Hi & Hp & Ht & Hm). unfold insert_message in E. simplify_eq.
    unfold store_ok. simpl. rewrite map_app. simpl.
    repeat split; try done.
    apply NoDup_snoc; [done|]. apply next_id_fresh.
Qed.

(** *** Refused registrations *)

Lemma existsb_phone_true (l : list customer_row) r :
  r ∈ l -> existsb (fun r' => bool_decide (phone r' = phone r)) l = true.
Proof.
  intros Hr. apply existsb_exists. exists r.
  split; [by apply list_elem_of_In|]. by apply bool_decide_eq_true_2.
Qed.

Lemma create_customer_rejects_known_phone_aux w (d : gmap string value) n r :
  faults w = [] ->
  dict_get d "name" (VStr "") = VStr n ->
  r ∈ customers (db w) ->
  dict_get d "phone" (VStr "") = VStr (phone r) ->
  create_customer d w
  = (inr (failure "UNIQUE constraint failed: customers.phone"), w).
Proof.
  intros Hf Hn Hr Hp.
  pose proof (create_customer_run d w Hf) as Hrun.
  rewrite Hn, Hp in Hrun. unfold insert_customer in Hrun. simpl in Hrun.
  by rewrite existsb_phone_true in Hrun.
Qed.



(** *** Transactions at the edges *)

Lemma execute_fault {A} (s : stmt A) w msg rest :
  faults w = Some msg :: rest ->
  execute s w = (inl (OperationalError msg), set_faults rest w).
Proof. intros H. unfold execute, bind, connect. by rewrite H. Qed.

Lemma execute_pass {A} (s : stmt A) w rest :
  faults w = None :: rest ->
  execute s w = match s (db w) with
                | inl e => (inl e, set_faults rest w)
                | inr (a, d) => (inr a, set_db d (set_faults rest w))
                end.
Proof. intros H. unfold execute, bind, connect. by rewrite H. Qed.

Lemma filter_id_none (l : list customer_row) key :
  head (filter (fun r => id r = key) l) = None ->
  forall r, r ∈ l -> id r <> key.
Proof.
  intros H r Hr Heq.
  assert (r ∈ filter (fun r => id r = key) l) as Hin
    by (by apply list_elem_of_filter).
  destruct (filter _ l); [by apply not_elem_of_nil in Hin|done].
Qed.

Lemma update_balance_unknown f key d :
  find_customer key d = None ->
  update_balance f (VNum key) d = inr ([], d).
Proof.
  unfold find_customer, update_balance. intros H. f_equal. f_equal.
  destruct d as [cs ts ms]. simpl in *. f_equal.
  pose proof (filter_id_none cs key H) as Hne.
  clear H. induction cs as [|r cs IH]; [done|]. simpl.
  rewrite id_matches_num, bool_decide_eq_false_2, IH; [done| |].
  - intros r' Hr'. apply Hne. by right.
  - intros Heq. apply (Hne r); [left|done].
Qed.

Lemma balance_statement_cases customer_id amount operation d :
  exists f, balance_statement customer_id amount operation d
            = update_balance f customer_id d.
Proof. unfold balance_statement. repeat case_match; eauto. Qed.




(** *** Adjusting a balance *)

Lemma set_current_balance_same r : set_current_balance (current_balance r) r = r.
Proof. by destruct r. Qed.

Lemma find_customer_other f key key' d rows d' :
  update_balance f (VNum key) d = inr (rows, d') ->
  key' <> key ->
  find_customer key' d' = find_customer key' d.
Proof.
  unfold update_balance, find_customer. intros H Hne. simplify_eq. simpl.
  f_equal. induction (customers d) as [|r l IH]; [done|].
  simpl. rewrite !filter_cons, id_matches_num.
  destruct (decide (id r = key)) as [E|E].
  - rewrite bool_decide_eq_true_2 by done. simpl.
    rewrite !decide_False by congruence. apply IH.
  - rewrite bool_decide_eq_false_2 by done.
    destruct (decide (id r = key')); [by rewrite IH|apply IH].
Qed.



(** *** Transactions in sequence *)

Lemma create_transaction_moves w (d : gmap string value) key a b r0 ty (f : Z -> Z -> Z) :
  faults w = [] ->
  dict_get d "customer_id" VNone = VNum key ->
  dict_get d "amount" (VNum 0) = VNum a ->
  dict_get d "transaction_type" (VStr "") = VStr ty ->
  (ty = "payment" /\ f = Z.add) \/ (ty = "charge" /\ f = Z.sub) ->
  find_customer key (db w) = Some r0 ->
  current_balance r0 = VNum b ->
  exists tid w',
    create_transaction d w
    = (inr {[ "success" := RBool true; "transaction_id" := RVal (VNum tid) ]}, w')
    /\ faults w' = []
    /\ find_customer key (db w') = Some (set_current_balance (VNum (f b a)) r0).
Proof.
  intros Hf Hcid Hamt Hty Hcase Hr Hb.
  pose proof (create_transaction_run d w Hf) as Hrun. simpl in Hrun.
  rewrite Hcid, Hamt, Hty in Hrun.
  destruct (insert_transaction _ _ _ _ _ _) as [e|[tid d1]] eqn:Hi; [done|].
  destruct (insert_transaction_customers _ _ _ _ _ _ _ _ Hi) as [Hc _].
  destruct Hrun as (d2 & Hrun & Hpay & Hchg & _).
  exists tid, (set_db d2 w). split; [done|]. split; [done|]. simpl.
  destruct Hcase as [[-> ->] | [-> ->]].
  - specialize (Hpay eq_refl). unfold balance_statement in Hpay. simpl in Hpay.
    pose proof (find_customer_update
                  (fun balance => sql_arith Z.add balance (VNum a)) key d1) as Hu.
    rewrite Hpay in Hu. destruct Hu as (Hu & _).
    rewrite Hu, (find_customer_customers key (db w) d1 Hc), Hr. simpl.
    by rewrite Hb.
  - specialize (Hchg eq_refl). unfold balance_statement in Hchg. simpl in Hchg.
    pose proof (find_customer_update
                  (fun balance => sql_arith Z.sub balance (VNum a)) key d1) as Hu.
    rewrite Hchg in Hu. destruct Hu as (Hu & _).
    rewrite Hu, (find_customer_customers key (db w) d1 Hc), Hr. simpl.
    by rewrite Hb.
Qed.


(** *** Listings *)

Lemma insert_desc_perm {A} (key : A -> Z) x l : insert_desc key x l ≡ₚ x :: l.
Proof.
  induction l as [|y l IH]; simpl; [done|].
  destruct (key y <=? key x); [done|]. rewrite IH. apply Permutation_swap.
Qed.

Lemma order_by_desc_perm {A} (key : A -> Z) l : order_by_desc key l ≡ₚ l.
Proof.
  unfold order_by_desc. induction l as [|x l IH]; simpl; [done|].
  by rewrite insert_desc_perm, IH.
Qed.

Lemma insert_desc_sorted {A} (key : A -> Z) x l :
  descending key l -> descending key (insert_desc key x l).
Proof.
  unfold descending. induction l as [|y l IH]; simpl; intros Hl.
  - repeat constructor.
  - apply StronglySorted_inv in Hl as [Hl Hy].
    destruct (Z.leb_spec (key y) (key x)) as [Hle|Hgt].
    + constructor; [by constructor|]. constructor; [done|].
      eapply Forall_impl; [exact Hy|]. simpl. intros z Hz. lia.
    + constructor; [by apply IH|].
      rewrite insert_desc_perm. constructor; [lia|done].
Qed.

Lemma order_by_desc_sorted {A} (key : A -> Z) l : descending key (order_by_desc key l).
Proof.
  unfold order_by_desc. induction l as [|x l IH]; simpl.
  - constructor.
  - by apply insert_desc_sorted.
Qed.

Lemma sql_limit_split {A} n (l : list A) :
  exists rest,
    sql_limit n l ++ rest = l
    /\ (n < 0 -> rest = [])
    /\ (0 <= n -> length (sql_limit n l) = Nat.min (Z.to_nat n) (length l)).
Proof.
  unfold sql_limit. destruct (Z.ltb_spec n 0) as [Hneg|Hpos].
  - exists []. rewrite app_nil_r. split; [done|]. split; [done|lia].
  - exists (drop (Z.to_nat n) l). rewrite take_drop.
    split; [done|]. split; [lia|]. intros _. apply length_take.
Qed.

(** The rows a listing returns, for a table, a selection and a sort key. *)
Lemma listing_rows {A} (key : A -> Z) (P : A -> Prop) `{!forall x, Decision (P x)}
    n (l : list A) :
  exists rest,
    (sql_limit n (order_by_desc key (filter P l)) ++ rest) ≡ₚ filter P l
    /\ descending key (sql_limit n (order_by_desc key (filter P l)) ++ rest)
    /\ (n < 0 -> rest = [])
    /\ (0 <= n -> length (sql_limit n (order_by_desc key (filter P l)))
                  = Nat.min (Z.to_nat n) (length (filter P l))).
Proof.
  destruct (sql_limit_split n (order_by_desc key (filter P l)))
    as (rest & Hsplit & Hneg & Hlen).
  exists rest. rewrite Hsplit. split; [apply order_by_desc_perm|].
  split; [apply order_by_desc_sorted|]. split; [done|].
  intros Hn. rewrite (Hlen Hn). by rewrite (Permutation_length (order_by_desc_perm key _)).
Qed.

Lemma get_customer_transactions_newest_first_aux w key limit :
  faults w = [] ->
  exists rows rest,
    get_customer_transactions key limit w
    = (inr {[ "success" := RBool true;
              "transactions" := RRows (map transaction_dict rows) ]}, w)
    /\ (rows ++ rest)
       ≡ₚ filter (fun t => tx_customer_id t = VNum key) (transactions (db w))
    /\ descending tx_created_at (rows ++ rest)
    /\ (limit < 0 -> rest = [])
    /\ (0 <= limit ->
        length rows
        = Nat.min (Z.to_nat limit)
            (length (filter (fun t => tx_customer_id t = VNum key)
                       (transactions (db w))))).
Proof.
  intros Hf.
  destruct (listing_rows tx_created_at (fun t => tx_customer_id t = VNum key) limit
              (transactions (db w))) as (rest & Hperm & Hsort & Hneg & Hlen).
  eexists _, rest. split; [|done].
  unfold get_customer_transactions, try_except, bind, execute_query.
  rewrite execute_healthy by done. unfold select_transactions.
  by rewrite set_db_same.
Qed.



(** X14.  With a healthy store, [get_customers] returns rows in descending
    order of creation; without a status, and also with the empty string as
    status, they are all the customers, and with a non-empty status exactly
    the customers of that status. *)
Theorem get_customers_newest_first w status_filter :
  faults w = [] ->
  exists rows,
    get_customers status_filter w
    = (inr {[ "success" := RBool true;
              "customers" := RRows (map customer_dict rows) ]}, w)
    /\ descending created_at rows
    /\ (status_filter = None \/ status_filter = Some "" ->
        rows ≡ₚ customers (db w))
    /\ (forall s, status_filter = Some s -> s <> "" ->
        rows ≡ₚ filter (fun r => status r = Some s) (customers (db w))).
Proof.
  intros Hf.
  unfold get_customers, try_except, bind, execute_query.
  destruct status_filter as [s|]; simpl.
  - destruct (String.eqb_spec s "") as [->|Hne]; simpl.
    + rewrite execute_healthy by done. unfold select_customers.
      rewrite set_db_same. eexists. split; [done|].
      split; [apply order_by_desc_sorted|].
      split; [intros _; apply order_by_desc_perm|]. intros s Hs. by simplify_eq.
    + rewrite execute_healthy by done. unfold select_customers.
      rewrite set_db_same. eexists. split; [done|].
      split; [apply order_by_desc_sorted|].
      split; [intros [?|?]; by simplify_eq|].
      intros s' Hs _. simplify_eq. apply order_by_desc_perm.
  - rewrite execute_healthy by done. unfold select_customers.
    rewrite set_db_same. eexists. split; [done|].
    split; [apply order_by_desc_sorted|].
    split; [intros _; apply order_by_desc_perm|]. done.
Qed.


(** *** Messages that are not sent *)

Lemma get_customer_pass key w rest :
  faults w = None :: rest ->
  get_customer key w
  = (inr match find_customer key (db w) with
         | Some r => {[ "success" := RBool true; "customer" := RRow (customer_dict r) ]}
         | None => failure "Customer not found"
         end, set_faults rest w).
Proof.
  intros Hf. unfold get_customer, try_except, bind, execute_query.
  rewrite (execute_pass _ w rest Hf). unfold select_customer, find_customer.
  destruct (filter _ _); simpl; by destruct w.
Qed.

Lemma send_whatsapp_message_after_lookup key message w w1 r0 :
  get_customer key w
  = (inr {[ "success" := RBool true; "customer" := RRow (customer_dict r0) ]}, w1) ->
  phone r0 <> "" ->
  send_whatsapp_message key message w
  = try_except
      (whatsapp_result <- send_message (VStr (phone r0)) message "text" ;;
       sent <- subscript whatsapp_result "success" ;;
       (if robj_truthy sent
        then now <- datetime_now ;;
             execute_insert (insert_message key "text" message "outbound" now) ;;;
             ret tt
        else ret tt) ;;;
       ret whatsapp_result) w1.
Proof.
  intros Hg Hphone.
  unfold send_whatsapp_message, try_except. unfold bind at 1.
  rewrite Hg.
  unfold bind at 1. unfold subscript at 1. rewrite found_success.
  unfold ret at 1. change (negb (robj_truthy (RBool true))) with false.
  cbv beta iota.
  unfold bind at 1. unfold subscript at 1. rewrite found_customer.
  unfold ret at 1. unfold bind at 1. unfold as_dict, ret at 1. cbv beta iota.
  rewrite customer_dict_phone. unfold truthy.
  by rewrite (proj2 (String.eqb_neq _ _) Hphone).
Qed.

Lemma send_whatsapp_message_found key message w r0 :
  faults w = [] ->
  find_customer key (db w) = Some r0 ->
  phone r0 <> "" ->
  send_whatsapp_message key message w
  = try_except
      (whatsapp_result <- send_message (VStr (phone r0)) message "text" ;;
       sent <- subscript whatsapp_result "success" ;;
       (if robj_truthy sent
        then now <- datetime_now ;;
             execute_insert (insert_message key "text" message "outbound" now) ;;;
             ret tt
        else ret tt) ;;;
       ret whatsapp_result) w.
Proof.
  intros Hf Hr Hphone. apply send_whatsapp_message_after_lookup; [|done].
  by rewrite get_customer_run, Hr.
Qed.


(** X17.  With a healthy store and a configured gateway, when the network
    raises on the request for an existing customer with a phone,
    [send_whatsapp_message] returns the failure with the exception's
    message; the one request has been posted and no message is logged. *)
Theorem send_whatsapp_message_transport_failure key message w r0 msg :
  faults w = [] ->
  find_customer key (db w) = Some r0 ->
  phone r0 <> "" ->
  api_url (whatsapp w) <> "" ->
  access_token (whatsapp w) <> "" ->
  http w (message_request (whatsapp w) (VStr (phone r0)) message "text") = NetRaise msg ->
  send_whatsapp_message key message w
  = (inr (failure msg),
     set_posted
       (posted w ++ [message_request (whatsapp w) (VStr (phone r0)) message "text"]) w).
Proof.
  intros Hf Hr Hphone Hurl Htok Hnet.
  rewrite (send_whatsapp_message_found key message w r0) by done.
  unfold try_except, bind. rewrite send_message_run.
  rewrite (proj2 (String.eqb_neq _ _) Hurl), (proj2 (String.eqb_neq _ _) Htok).
  simpl. rewrite Hnet. unfold subscript. by rewrite failure_success.
Qed.

(** X18.  When the gateway delivers the message and the store then fails
    on the audit insert, [send_whatsapp_message] returns the store's error:
    the request has been posted, the tables are unchanged, and the gateway's
    success is not reported. *)
Theorem audit_fault_hides_delivery key message w r0 data msg rest :
  faults w = None :: Some msg :: rest ->
  find_customer key (db w) = Some r0 ->
  phone r0 <> "" ->
  api_url (whatsapp w) <> "" ->
  access_token (whatsapp w) <> "" ->
  http w (message_request (whatsapp w) (VStr (phone r0)) message "text") = NetJson data ->
  exists w',
    send_whatsapp_message key message w = (inr (failure msg), w')
    /\ db w' = db w
    /\ posted w'
       = posted w ++ [message_request (whatsapp w) (VStr (phone r0)) message "text"].
Proof.
  intros Hf Hr Hphone Hurl Htok Hnet.
  rewrite (send_whatsapp_message_after_lookup key message w
             (set_faults (Some msg :: rest) w) r0);
    [|by rewrite (get_customer_pass key w _ Hf), Hr|done].
  unfold try_except, bind. rewrite send_message_run. simpl whatsapp.
  rewrite (proj2 (String.eqb_neq _ _) Hurl), (proj2 (String.eqb_neq _ _) Htok).
  simpl. rewrite Hnet. simpl.
  eexists. split; [done|]. simpl. done.
Qed.


(** X20.  With a healthy store, [update_customer_balance] with None as
    amount succeeds under every operation and leaves the customer's balance
    NULL, after which [send_payment_reminder] for that customer fails on the
    comparison of the balance with 0. *)
Theorem update_with_none_erases_balance key operation amount w r0 :
  faults w = [] ->
  find_customer key (db w) = Some r0 ->
  exists w',
    update_customer_balance (VNum key) VNone operation w
    = (inr {[ "success" := RBool true ]}, w')
    /\ balance_of key (db w') = Some VNone
    /\ send_payment_reminder key amount w'
       = (inr (failure
                 "'<=' not supported between instances of 'NoneType' and 'int'"), w').
Proof.
  intros Hf Hr.
  destruct (update_customer_balance_healthy (VNum key) VNone operation w Hf)
    as (d1 & Hd1 & Hu1).
  exists (set_db d1 w). split; [done|].
  assert (find_customer key d1 = Some (set_current_balance VNone r0)) as Hr1.
  { unfold balance_statement in Hd1.
    repeat case_match;
      match type of Hd1 with update_balance ?f _ _ = _ =>
        pose proof (find_customer_update f key (db w)) as Hu end;
      rewrite Hd1 in Hu; destruct Hu as (Hu & _); rewrite Hu, Hr; simpl;
      unfold sql_arith; by destruct (to_number (current_balance r0)). }
  split.
  - unfold balance_of. simpl. by rewrite Hr1.
  - rewrite (send_payment_reminder_run key amount _ (set_current_balance VNone r0))
      by done.
    done.
Qed.

(** *** The summary outside its range *)

(** X21.  Whenever now minus the window is not a [datetime],
    [get_financial_summary] returns a failure and leaves the world
    untouched, the store not even being consulted. *)
Theorem get_financial_summary_out_of_range w days :
  ~ datetime_valid (clock w - days * MICROSECONDS_PER_DAY) ->
  exists msg, get_financial_summary days w = (inr (failure msg), w).
Proof.
  intros Hbad. unfold get_financial_summary, try_except, bind, datetime_now, lift.
  unfold timedelta. destruct (Z.abs days <=? TIMEDELTA_MAX_DAYS); [|eauto].
  unfold datetime_sub.
  destruct (Z.leb_spec 0 (clock w - days * MICROSECONDS_PER_DAY));
    destruct (Z.ltb_spec (clock w - days * MICROSECONDS_PER_DAY) DATETIME_END);
    simpl; eauto.
  exfalso. apply Hbad. unfold datetime_valid. lia.
Qed.

(** *** Lookups and a store that is down *)

Lemma filter_id_unique (l : list customer_row) r :
  NoDup (map id l) -> r ∈ l -> filter (fun r' => id r' = id r) l = [r].
Proof.
  induction l as [|x l IH]; intros Hnd Hr; [by apply not_elem_of_nil in Hr|].
  simpl in Hnd. apply NoDup_cons in Hnd as [Hx Hnd].
  rewrite filter_cons. apply elem_of_cons in Hr as [->|Hr].
  - rewrite decide_True by done. f_equal.
    clear IH. induction l as [|y l IH]; [done|].
    rewrite filter_cons. simpl in Hx. apply not_elem_of_cons in Hx as [Hne Hx].
    simpl in Hnd. apply NoDup_cons in Hnd as [_ Hnd].
    rewrite decide_False by done. by apply IH.
  - rewrite decide_False; [by apply IH|].
    intros Heq. apply Hx. rewrite Heq. by apply list_elem_of_fmap_2.
Qed.

Lemma filter_id_absent (l : list customer_row) key :
  (forall r, r ∈ l -> id r <> key) -> filter (fun r => id r = key) l = [].
Proof.
  induction l as [|x l IH]; intros H; [done|].
  rewrite filter_cons, decide_False by (apply H; left).
  apply IH. intros r Hr. apply H. by right.
Qed.


(** X23.  When the store fails on the first connection of an operation,
    every operation (the summary for a window that starts at a [datetime])
    returns the failure with the store's message and changes nothing but the
    fault script. *)
Theorem store_down_is_reported o w msg rest :
  faults w = Some msg :: rest ->
  match o with
  | GetFinancialSummary days =>
      datetime_valid (clock w)
      /\ datetime_valid (clock w - days * MICROSECONDS_PER_DAY)
  | _ => True
  end ->
  run o w = (inr (failure msg), set_faults rest w).
Proof.
  intros Hf Hok.
  destruct o; simpl;
    unfold create_customer, get_customer, get_customers, update_customer_balance,
      create_transaction, get_customer_transactions, get_financial_summary,
      send_whatsapp_message, send_payment_reminder, get_customer_messages,
      get_customer, try_except, bind, datetime_now, lift, execute_query,
      execute_insert; simpl.
  - by rewrite (execute_fault _ w msg rest).
  - by rewrite (execute_fault _ w msg rest).
  - destruct status_filter as [s|]; simpl; [destruct (negb _)|];
      by rewrite (execute_fault _ w msg rest).
  - by rewrite (execute_fault _ w msg rest).
  - by rewrite (execute_fault _ w msg rest).
  - by rewrite (execute_fault _ w msg rest).
  - destruct Hok as [Hnow Hsince].
    destruct (timedelta_in_range _ _ Hnow Hsince) as [-> ->].
    by rewrite (execute_fault _ w msg rest).
  - rewrite (execute_fault _ w msg rest) by done. unfold subscript.
    by rewrite failure_success.
  - rewrite (execute_fault _ w msg rest) by done. unfold subscript.
    by rewrite failure_success.
  - by rewrite (execute_fault _ w msg rest).
Qed.

End Service.

(** ** The sample session, run *)

(** The example of the specification and the run of the test script:
    registration starts the balance at 0, a payment of 500 brings it to
    500, a charge of 150 to 350, the summary over 30 days reports the two
    transactions, and without configuration the gateway refuses to send. *)
Example test_crm_functionality :
  let w0 := sample_world empty_store unconfigured in
  let w1 := (create_customer sample_text_of_num sample_num_of_text maria_data w0).2 in
  let w2 := (create_transaction sample_text_of_num sample_num_of_text sample_cast_text
               payment_data w1).2 in
  let w3 := (create_transaction sample_text_of_num sample_num_of_text sample_cast_text
               charge_data w2).2 in
  balance_of 1 (db w1) = Some (VNum 0)
  /\ balance_of 1 (db w2) = Some (VNum 500)
  /\ balance_of 1 (db w3) = Some (VNum 350)
  /\ (get_financial_summary sample_cast_text 30 w3).1
     = inr {[ "success" := RBool true;
              "summary" := RRow {[ "total_revenue" := VNum 500;
                                   "total_charges" := VNum 150;
                                   "net_amount" := VNum 350;
                                   "transaction_count" := VNum 2;
                                   "active_customers" := VNum 1;
                                   "period_days" := VNum 30 ]} ]}
  /\ (send_whatsapp_message sample_isoformat 1 "Test message" w3).1
     = inr (failure "WhatsApp API not configured").
Proof. repeat split; reflexivity. Qed.

(** When the store fails on the audit insert, after the gateway has sent the
    message, the caller gets the store's error and no row is logged. *)
Example audit_fault_hides_sent_message :
  let w := set_faults [None; Some "disk I/O error"]
             (sample_world maria_store configured) in
  (send_whatsapp_message sample_isoformat 1 "Test message" w).1
  = inr (failure "disk I/O error")
  /\ whatsapp_messages (db (send_whatsapp_message sample_isoformat 1 "Test message" w).2)
     = []
  /\ posted (send_whatsapp_message sample_isoformat 1 "Test message" w).2
     = [message_request configured (VStr "5511888888888") "Test message" "text"].
Proof. repeat split; reflexivity. Qed.




Lemma unconfigured_gateway_sends_nothing_witness :
  send_message (VStr "5511888888888") "Test message" "text"
    (sample_world maria_store unconfigured)
  = (inr (failure "WhatsApp API not configured"), sample_world maria_store unconfigured)
  /\ whatsapp_messages
       (db (send_whatsapp_message sample_isoformat 1 "Test message"
              (sample_world maria_store unconfigured)).2) = []
  /\ posted (send_whatsapp_message sample_isoformat 1 "Test message"
               (sample_world maria_store unconfigured)).2 = [].
Proof.
  apply (unconfigured_gateway_sends_nothing sample_isoformat (VStr "5511888888888") 1
           "Test message" "text" (sample_world maria_store unconfigured)).
  left. reflexivity.
Defined.


Lemma reminder_thanks_iff_settled_witness :
  send_payment_reminder sample_isoformat 2 (VNum 100)
    (sample_world ledger_store configured)
  = send_whatsapp_message sample_isoformat 2 (thank_you_message "João WhatsApp Test")
      (sample_world ledger_store configured)
  /\ (reminder_message (VStr "João WhatsApp Test") (VNum (-250)) (VNum 100)
      = inr (thank_you_message "João WhatsApp Test") <-> -250 <= 0).
Proof.
  apply (reminder_thanks_iff_settled sample_isoformat 2 (VNum 100)
           (sample_world ledger_store configured) joao (-250)
           eq_refl eq_refl eq_refl).
Defined.





(** ** More of the sample session, run *)

Lemma queries_change_nothing_witness :
  same_but_faults (sample_world ledger_store configured)
    (run sample_isoformat sample_text_of_num sample_num_of_text sample_cast_text
       (GetCustomerTransactions 1 50) (sample_world ledger_store configured)).2.
Proof.
  apply (queries_change_nothing sample_isoformat sample_text_of_num sample_num_of_text
           sample_cast_text (GetCustomerTransactions 1 50)
           (sample_world ledger_store configured) eq_refl).
Defined.

Lemma operations_keep_keys_unique_witness :
  store_ok
    (db (run sample_isoformat sample_text_of_num sample_num_of_text sample_cast_text
           (CreateTransaction payment_data) (sample_world ledger_store configured)).2).
Proof.
  apply (operations_keep_keys_unique sample_isoformat sample_text_of_num
           sample_num_of_text sample_cast_text (CreateTransaction payment_data)
           (sample_world ledger_store configured)).
  repeat split;
    match goal with |- ?P => exact (@bool_decide_unpack P _ I) end.
Defined.











Lemma get_customers_newest_first_witness :
  exists rows,
    get_customers sample_isoformat (Some "") (sample_world ledger_store configured)
    = (inr {[ "success" := RBool true;
              "customers" := RRows (map (customer_dict sample_isoformat) rows) ]},
       sample_world ledger_store configured)
    /\ descending created_at rows
    /\ (Some "" = None \/ Some "" = Some "" -> rows ≡ₚ [maria; joao])
    /\ (forall s, Some "" = Some s -> s <> "" ->
        rows ≡ₚ filter (fun r => status r = Some s) [maria; joao]).
Proof.
  apply (get_customers_newest_first sample_isoformat
           (sample_world ledger_store configured) (Some "") eq_refl).
Defined.



Lemma send_whatsapp_message_transport_failure_witness :
  send_whatsapp_message sample_isoformat 1 "Test message"
    (offline_world maria_store configured)
  = (inr (failure "Connection refused"),
     set_posted
       [message_request configured (VStr "5511888888888") "Test message" "text"]
       (offline_world maria_store configured)).
Proof.
  apply (send_whatsapp_message_transport_failure sample_isoformat 1 "Test message"
           (offline_world maria_store configured) maria "Connection refused"
           eq_refl eq_refl).
  - discriminate.
  - discriminate.
  - discriminate.
  - reflexivity.
Defined.

Lemma audit_fault_hides_delivery_witness :
  exists w',
    send_whatsapp_message sample_isoformat 1 "Test message"
      (set_faults [None; Some "disk I/O error"] (sample_world maria_store configured))
    = (inr (failure "disk I/O error"), w')
    /\ db w' = maria_store
    /\ posted w'
       = [] ++ [message_request configured (VStr "5511888888888") "Test message" "text"].
Proof.
  apply (audit_fault_hides_delivery sample_isoformat 1 "Test message"
           (set_faults [None; Some "disk I/O error"]
              (sample_world maria_store configured))
           maria "{}" "disk I/O error" [] eq_refl eq_refl).
  - discriminate.
  - discriminate.
  - discriminate.
  - reflexivity.
Defined.


Lemma update_with_none_erases_balance_witness :
  exists w',
    update_customer_balance sample_num_of_text sample_cast_text (VNum 1) VNone "add"
      (sample_world maria_store configured)
    = (inr {[ "success" := RBool true ]}, w')
    /\ balance_of 1 (db w') = Some VNone
    /\ send_payment_reminder sample_isoformat 1 (VNum 100) w'
       = (inr (failure
                 "'<=' not supported between instances of 'NoneType' and 'int'"), w').
Proof.
  apply (update_with_none_erases_balance sample_isoformat sample_num_of_text
           sample_cast_text 1 "add" (VNum 100) (sample_world maria_store configured)
           maria eq_refl eq_refl).
Defined.

Lemma get_financial_summary_out_of_range_witness :
  exists msg,
    get_financial_summary sample_cast_text (-3000000)
      (sample_world ledger_store configured)
    = (inr (failure msg), sample_world ledger_store configured).
Proof.
  apply (get_financial_summary_out_of_range sample_cast_text
           (sample_world ledger_store configured) (-3000000)).
  intros [_ H]. vm_compute in H. discriminate H.
Defined.


Lemma store_down_is_reported_witness :
  run sample_isoformat sample_text_of_num sample_num_of_text sample_cast_text
    (SendPaymentReminder 1 VNone)
    (set_faults [Some "unable to open database file"]
       (sample_world maria_store configured))
  = (inr (failure "unable to open database file"),
     set_faults [] (set_faults [Some "unable to open database file"]
                      (sample_world maria_store configured))).
Proof.
  apply (store_down_is_reported sample_isoformat sample_text_of_num sample_num_of_text
           sample_cast_text (SendPaymentReminder 1 VNone)
           (set_faults [Some "unable to open database file"]
              (sample_world maria_store configured))
           "unable to open database file" [] eq_refl I).
Defined.
